(** * toml_to_json.py: body resolution of TOML snippets

    A shallow embedding of [src/toml_to_json.py]: the Python values a TOML
    document parses into, the handful of Python operations the module
    applies to them, and the three functions [process_body_data],
    [convert_toml_string] and [output_result].

    - A Python [str] is the list of its code points.
    - A Python [dict] is an association list in insertion order.
    - A raised exception is the [Raise] branch of the [result] monad; the
      exception class is kept, its message is not.
    - TOML date and time values are not part of [pyval]. *)

From Stdlib Require Import ZArith NArith List String Ascii Bool Lia.
From Stdlib Require Import SpecFloat.
From stdpp Require Import base option list gmap.

Open Scope Z_scope.

(** ** Strings *)

Abbreviation pystr := (list N).

(** An ASCII literal as a Python string. *)
Definition str (s : string) : pystr :=
  map N_of_ascii (list_ascii_of_string s).

(** The code point of ['\n']. *)
Definition LF : N := 10%N.

(** [s.split('\n')]: cut at every line feed; [k] line feeds give [k + 1]
    pieces, and the empty string gives one empty piece. *)
Fixpoint split_lf (s : pystr) : list pystr :=
  match s with
  | [] => [[]]
  | c :: s' =>
      if (c =? LF)%N then [] :: split_lf s'
      else match split_lf s' with
           | [] => [[c]]
           | line :: lines => (c :: line) :: lines
           end
  end.

(** The line boundaries of [str.splitlines]: LF, VT, FF, CR, FS, GS, RS,
    NEL, LINE SEPARATOR and PARAGRAPH SEPARATOR. *)
Definition linebreaks : list N :=
  [10; 11; 12; 13; 28; 29; 30; 133; 8232; 8233]%N.

Definition is_linebreak (c : N) : bool := bool_decide (c ∈ linebreaks).

(** [s.splitlines()]: cut at every line boundary, CR LF counting as one;
    no piece is produced after the last boundary when nothing follows it. *)
Fixpoint splitlines (s : pystr) : list pystr :=
  match s with
  | [] => []
  | c :: s' =>
      if is_linebreak c then
        match s' with
        | d :: s'' =>
            if (c =? 13)%N && (d =? LF)%N then [] :: splitlines s''
            else [] :: splitlines s'
        | [] => [[]]
        end
      else match splitlines s' with
           | [] => [[c]]
           | line :: lines => (c :: line) :: lines
           end
  end.

(** [p in s] on strings: [p] occurs in [s]. *)
Fixpoint str_startswith (p s : pystr) : bool :=
  match p, s with
  | [], _ => true
  | _ :: _, [] => false
  | c :: p', d :: s' => (c =? d)%N && str_startswith p' s'
  end.

Fixpoint str_contains (p s : pystr) : bool :=
  str_startswith p s ||
  match s with
  | [] => false
  | _ :: s' => str_contains p s'
  end.

(** Lexicographic order on code points, the order of [str]. *)
Fixpoint str_le (s t : pystr) : bool :=
  match s, t with
  | [], _ => true
  | _ :: _, [] => false
  | c :: s', d :: t' =>
      if (c <? d)%N then true
      else if (c =? d)%N then str_le s' t' else false
  end.

(** ** Exceptions *)

Inductive pyerr : Type :=
| AssertionError
| AttributeError
| IndexError
| KeyError
| OSError
| OverflowError
| TypeError
| ValueError.

Inductive result (A : Type) : Type :=
| Ok (a : A)
| Raise (e : pyerr).
Arguments Ok {A} a.
Arguments Raise {A} e.

#[global] Instance result_ret : MRet result := @Ok.
#[global] Instance result_bind : MBind result :=
  λ A B f m, match m with Ok a => f a | Raise e => Raise e end.

(** [assert c] *)
Definition py_assert (c : bool) : result unit :=
  if c then Ok tt else Raise AssertionError.

(** ** Dictionaries

    Keys are strings; an entry keeps the position of its first insertion. *)

Section Dict.
Context {V : Type}.

(** [k in d] *)
Fixpoint dict_contains (k : pystr) (d : list (pystr * V)) : bool :=
  match d with
  | [] => false
  | (k', _) :: d' => if decide (k = k') then true else dict_contains k d'
  end.

(** [d.get(k)] *)
Fixpoint dict_get (k : pystr) (d : list (pystr * V)) : option V :=
  match d with
  | [] => None
  | (k', v) :: d' => if decide (k = k') then Some v else dict_get k d'
  end.

(** [d[k]] *)
Definition dict_getitem (d : list (pystr * V)) (k : pystr) : result V :=
  match dict_get k d with
  | Some v => Ok v
  | None => Raise KeyError
  end.

(** [del d[k]], without the error on a missing key *)
Fixpoint dict_delete (k : pystr) (d : list (pystr * V)) : list (pystr * V) :=
  match d with
  | [] => []
  | (k', v) :: d' =>
      if decide (k = k') then dict_delete k d' else (k', v) :: dict_delete k d'
  end.

(** [d.pop(k)]: the value and the dictionary without the key *)
Definition dict_pop (k : pystr) (d : list (pystr * V))
  : result (V * list (pystr * V)) :=
  match dict_get k d with
  | Some v => Ok (v, dict_delete k d)
  | None => Raise KeyError
  end.

(** [d.pop(k, default)] *)
Definition dict_pop_default (k : pystr) (default : V) (d : list (pystr * V))
  : V * list (pystr * V) :=
  match dict_get k d with
  | Some v => (v, dict_delete k d)
  | None => (default, d)
  end.

(** [d[k] = v]: overwrite in place, or append a new entry *)
Fixpoint dict_set (k : pystr) (v : V) (d : list (pystr * V))
  : list (pystr * V) :=
  match d with
  | [] => [(k, v)]
  | (k', v') :: d' =>
      if decide (k = k') then (k, v) :: d' else (k', v') :: dict_set k v d'
  end.

(** [list(d)]: the keys, in order *)
Definition dict_keys (d : list (pystr * V)) : list pystr := map fst d.
End Dict.

(** ** Values *)

#[warnings="-register-all"] Inductive pyval : Type :=
| VStr (s : pystr)
| VInt (z : Z)
| VFloat (f : spec_float)
| VBool (b : bool)
| VList (l : list pyval)
| VDict (d : list (pystr * pyval)).

Abbreviation pydict := (list (pystr * pyval)).

(** *** Numbers: [int], [bool] (an [int] subclass) and [float] *)

Inductive number : Type :=
| NumZ (z : Z)
| NumF (f : spec_float).

Definition as_number (v : pyval) : option number :=
  match v with
  | VInt z => Some (NumZ z)
  | VBool b => Some (NumZ (Z.b2z b))
  | VFloat f => Some (NumF f)
  | _ => None
  end.

(** A float against an integer, compared exactly; [None] for NaN. *)
Definition float_compare_Z (f : spec_float) (z : Z) : option comparison :=
  match f with
  | S754_nan => None
  | S754_infinity s => Some (if s then Lt else Gt)
  | S754_zero _ => Some (0 ?= z)
  | S754_finite s m e =>
      let v := if s then Z.neg m else Z.pos m in
      Some (if 0 <=? e then v * 2 ^ e ?= z else v ?= z * 2 ^ (- e))
  end.

Definition num_compare (a b : number) : option comparison :=
  match a, b with
  | NumZ x, NumZ y => Some (x ?= y)
  | NumF f, NumF g => SFcompare f g
  | NumF f, NumZ y => float_compare_Z f y
  | NumZ x, NumF g => CompOpp <$> float_compare_Z g x
  end.

Definition num_eq (a b : number) : bool :=
  match num_compare a b with Some Eq => true | _ => false end.

Definition num_le (a b : number) : bool :=
  match num_compare a b with Some (Lt | Eq) => true | _ => false end.

(** binary64 *)
Definition float_prec : Z := 53.
Definition float_emax : Z := 1024.

(** [float(z)]: the nearest float, unless it is out of range. *)
Definition float_of_Z (z : Z) : result spec_float :=
  match binary_normalize float_prec float_emax z 0 false with
  | S754_infinity _ => Raise OverflowError
  | f => Ok f
  end.

Definition num_sub (a b : number) : result number :=
  match a, b with
  | NumZ x, NumZ y => Ok (NumZ (x - y))
  | NumF f, NumF g => Ok (NumF (SFsub float_prec float_emax f g))
  | NumF f, NumZ y =>
      g ← float_of_Z y; Ok (NumF (SFsub float_prec float_emax f g))
  | NumZ x, NumF g =>
      f ← float_of_Z x; Ok (NumF (SFsub float_prec float_emax f g))
  end.

Definition of_number (n : number) : pyval :=
  match n with NumZ z => VInt z | NumF f => VFloat f end.

(** *** Comparison *)

(** [a == b] *)
Fixpoint py_eq (a b : pyval) {struct a} : bool :=
  match a, b with
  | VStr s, VStr t => bool_decide (s = t)
  | VList l, VList m =>
      (fix all2 (l m : list pyval) : bool :=
         match l, m with
         | [], [] => true
         | x :: l', y :: m' => py_eq x y && all2 l' m'
         | _, _ => false
         end) l m
  | VDict d, VDict e =>
      (length d =? length e)%nat &&
      (fix all (d : pydict) : bool :=
         match d with
         | [] => true
         | (k, v) :: d' =>
             match dict_get k e with
             | Some w => py_eq v w
             | None => false
             end && all d'
         end) d
  | _, _ =>
      match as_number a, as_number b with
      | Some x, Some y => num_eq x y
      | _, _ => false
      end
  end.

(** [a <= b] *)
Fixpoint py_le (a b : pyval) {struct a} : result bool :=
  match a, b with
  | VStr s, VStr t => Ok (str_le s t)
  | VList l, VList m =>
      (fix lex (l m : list pyval) : result bool :=
         match l, m with
         | [], _ => Ok true
         | _ :: _, [] => Ok false
         | x :: l', y :: m' => if py_eq x y then lex l' m' else py_le x y
         end) l m
  | _, _ =>
      match as_number a, as_number b with
      | Some x, Some y => Ok (num_le x y)
      | _, _ => Raise TypeError
      end
  end.

(** [a >= b] *)
Definition py_ge (a b : pyval) : result bool := py_le b a.

(** [a - b] *)
Definition py_sub (a b : pyval) : result pyval :=
  match as_number a, as_number b with
  | Some x, Some y => n ← num_sub x y; Ok (of_number n)
  | _, _ => Raise TypeError
  end.

(** [x is True] *)
Definition py_is_True (v : pyval) : bool :=
  match v with
  | VBool true => true
  | _ => false
  end.

(** *** Sequences *)

(** [len(v)] *)
Definition py_len (v : pyval) : result Z :=
  match v with
  | VStr s => Ok (Z.of_nat (length s))
  | VList l => Ok (Z.of_nat (length l))
  | VDict d => Ok (Z.of_nat (length d))
  | _ => Raise TypeError
  end.

(** [l[i]] on a sequence, negative indices counting from the end *)
Definition seq_index {A : Type} (l : list A) (i : Z) : result A :=
  let j := if i <? 0 then i + Z.of_nat (length l) else i in
  if j <? 0 then Raise IndexError
  else match l !! Z.to_nat j with
       | Some x => Ok x
       | None => Raise IndexError
       end.

(** [v[i]] for an integer [i]; the keys of a table are strings, so an
    integer is never one of them. *)
Definition py_getitem (v : pyval) (i : Z) : result pyval :=
  match v with
  | VList l => seq_index l i
  | VStr s => c ← seq_index s i; Ok (VStr [c])
  | VDict _ => Raise KeyError
  | _ => Raise TypeError
  end.

(** What a slice bound accepts: objects with [__index__]. *)
Definition as_index (v : pyval) : result Z :=
  match v with
  | VInt z => Ok z
  | VBool b => Ok (Z.b2z b)
  | _ => Raise TypeError
  end.

(** A slice bound clamped to [0 .. len], negative bounds counting from the
    end. *)
Definition clamp_bound (len i : Z) : Z :=
  if i <? 0 then Z.max (i + len) 0 else Z.min i len.

(** [l[lo:hi]] for integers *)
Definition slice {A : Type} (l : list A) (lo hi : Z) : list A :=
  let len := Z.of_nat (length l) in
  let lo' := clamp_bound len lo in
  let hi' := clamp_bound len hi in
  take (Z.to_nat (hi' - lo')) (drop (Z.to_nat lo') l).

(** [l[lo:hi]] *)
Definition py_slice {A : Type} (l : list A) (lo hi : pyval) : result (list A) :=
  i ← as_index lo; j ← as_index hi; Ok (slice l i j).

(** [s.split('\n')]: only [str] has the method. *)
Definition py_split_lf (v : pyval) : result (list pystr) :=
  match v with
  | VStr s => Ok (split_lf s)
  | _ => Raise AttributeError
  end.

(** ** Loops *)

(** [while cond(s): s = step(s)], run for at most [fuel] iterations. *)
Fixpoint while_loop {S : Type} (fuel : nat) (cond : S → bool) (step : S → S)
    (s : S) : S :=
  match fuel with
  | O => s
  | S fuel' => if cond s then while_loop fuel' cond step (step s) else s
  end.

(** [len(body) > 0 and len(body[0]) == 0] *)
Definition leading_blank (body : list pystr) : bool :=
  (0 <? Z.of_nat (length body)) &&
  match head body with
  | Some line => Z.of_nat (length line) =? 0
  | None => false
  end.

(** [len(body) > 0 and len(body[-1]) == 0] *)
Definition trailing_blank (body : list pystr) : bool :=
  (0 <? Z.of_nat (length body)) &&
  match last body with
  | Some line => Z.of_nat (length line) =? 0
  | None => false
  end.

(** Lines 66-67. Every iteration drops one line, so [len(body)] iterations
    are enough to leave the loop. *)
Definition trim_leading (body : list pystr) : list pystr :=
  while_loop (length body) leading_blank
    (λ body, slice body 1 (Z.of_nat (length body))) body.

(** Lines 69-70. *)
Definition trim_trailing (body : list pystr) : list pystr :=
  while_loop (length body) trailing_blank (λ body, slice body 0 (-1)) body.

(** ** The body resolver *)

Section Resolver.

(** [open(p, encoding='utf-8').read()]: the decoded text of the file, or
    the exception that opening, reading or decoding it raises. *)
Variable read_text : pyval → result pystr.

(** Lines 54-58: the body comes from the file named by [source], or else
    from the [body] attribute. *)
Definition acquire_body (data : pydict) : result (list pystr * pydict) :=
  if dict_contains (str "source") data then
    '(path, data) ← dict_pop (str "source") data;
    text ← read_text path;
    Ok (splitlines text, data)
  else
    text ← dict_getitem data (str "body");
    body ← py_split_lf text;
    Ok (body, data).

(** Lines 61-64: the assertions on [range] and the slice. *)
Definition range_slice (body : list pystr) (range : pyval)
  : result (list pystr) :=
  n ← py_len range;
  py_assert (n =? 2);;
  r0 ← py_getitem range 0;
  r1 ← py_getitem range 1;
  c ← py_le r0 r1;
  py_assert c;;
  r0 ← py_getitem range 0;
  c ← py_ge r0 (VInt 1);
  py_assert c;;
  r0 ← py_getitem range 0;
  lo ← py_sub r0 (VInt 1);
  hi ← py_getitem range 1;
  py_slice body lo hi.

(** Lines 59-64. *)
Definition crop_range (body : list pystr) (data : pydict)
  : result (list pystr * pydict) :=
  if dict_contains (str "range") data then
    '(range, data) ← dict_pop (str "range") data;
    body ← range_slice body range;
    Ok (body, data)
  else Ok (body, data).

(** Lines 65-67. *)
Definition trim_leading_step (body : list pystr) (data : pydict)
  : list pystr * pydict :=
  let '(flag, data) :=
    dict_pop_default (str "trim_leading_blank_lines") (VBool false) data in
  (if py_is_True flag then trim_leading body else body, data).

(** Lines 68-70. *)
Definition trim_trailing_step (body : list pystr) (data : pydict)
  : list pystr * pydict :=
  let '(flag, data) :=
    dict_pop_default (str "trim_trailing_blank_lines") (VBool false) data in
  (if py_is_True flag then trim_trailing body else body, data).

(** Lines 40-73. The record is threaded through the steps, each of which
    removes the attribute it consumes; line 72 stores the lines under
    [body]. *)
Definition process_body_data (data : pydict) : result pydict :=
  '(body, data) ← acquire_body data;
  '(body, data) ← crop_range body data;
  let '(body, data) := trim_leading_step body data in
  let '(body, data) := trim_trailing_step body data in
  Ok (dict_set (str "body") (VList (VStr <$> body)) data).

(** [process_body_data(v)] for a value of any type. Only a table has
    [pop]; a string answers [in] by substring search and then has no
    [pop], or cannot be indexed by ['body']; an array cannot pop or be
    indexed by a string; a number does not support [in]. *)
Definition process_value (v : pyval) : result pyval :=
  match v with
  | VDict data => data ← process_body_data data; Ok (VDict data)
  | VStr s =>
      if str_contains (str "source") s then Raise AttributeError
      else Raise TypeError
  | _ => Raise TypeError
  end.

(** Lines 86-87: [{k: process_body_data(v) for k, v in data.items()}],
    the entries inserted one by one into [acc]. *)
Fixpoint dict_comprehension (items acc : pydict) : result pydict :=
  match items with
  | [] => Ok acc
  | (k, v) :: items' =>
      v' ← process_value v;
      dict_comprehension items' (dict_set k v' acc)
  end.

(** [toml.loads] and [json.dumps(_, indent=2)] *)
Variable toml_loads : pystr → result pydict.
Variable json_dumps : pydict → result pystr.

Definition convert_toml_string (toml_str : pystr) : result pystr :=
  data ← toml_loads toml_str;
  data ← dict_comprehension data [];
  json_dumps data.

End Resolver.

(** ** Output *)

Inductive node : Type :=
| File (content : pystr)
| Directory.

(** What [output_result] can touch: the file system and standard output.
    Whether an operation on them fails for a reason that [files] does not
    show is a fact of the world too:
    - [open_error p] is the exception [open(p, mode="w")] raises, if any,
      when [p] is not a directory: a missing parent directory, a denied
      permission;
    - [write_error p text] is the exception writing [text] to the opened
      file raises, if any, with what the file holds afterwards: a text its
      encoding cannot encode leaves the truncated, empty file, a full disk
      leaves a part of the text;
    - [print_error text] is the exception [print(text)] raises, if any,
      with what reached standard output: a text that cannot be encoded, a
      closed or broken stream. *)
Record world : Type := World {
  files : gmap pystr node;
  stdout : pystr;
  open_error : pystr → option pyerr;
  write_error : pystr → pystr → option (pyerr * pystr);
  print_error : pystr → option (pyerr * pystr)
}.

(** The world with other files, or other text on standard output. *)
Definition set_files (fs : gmap pystr node) (w : world) : world :=
  World fs (stdout w) (open_error w) (write_error w) (print_error w).

Definition set_stdout (out : pystr) (w : world) : world :=
  World (files w) out (open_error w) (write_error w) (print_error w).

(** [os.path.exists(p)] *)
Definition path_exists (w : world) (p : pystr) : bool :=
  bool_decide (is_Some (files w !! p)).

(** [print(text)]: the text and a line feed, or what was written before
    the exception. *)
Definition print (text : pystr) (w : world) : world * result unit :=
  match print_error w text with
  | Some (e, partial) => (set_stdout (stdout w ++ partial) w, Raise e)
  | None => (set_stdout (stdout w ++ text ++ [LF]) w, Ok tt)
  end.

(** [with open(p, mode="w") as f: f.write(text)]. A directory is not
    opened ([IsADirectoryError], an [OSError]); a path with a NUL character
    is refused with [ValueError]; when [open] raises, nothing has changed.
    Once the file is open it has been created or truncated, so a failing
    [write] leaves the file with what the failure left in it. *)
Definition write_file (p text : pystr) (w : world) : world * result unit :=
  match files w !! p with
  | Some Directory => (w, Raise OSError)
  | _ =>
      if bool_decide (0%N ∈ p) then (w, Raise ValueError)
      else
        match open_error w p with
        | Some e => (w, Raise e)
        | None =>
            match write_error w p text with
            | Some (e, partial) =>
                (set_files (<[p := File partial]> (files w)) w, Raise e)
            | None => (set_files (<[p := File text]> (files w)) w, Ok tt)
            end
        end
  end.

(** Lines 105-115. *)
Definition output_result (result_json : pystr) (json_file_path : option pystr)
    (overwrite : bool) (w : world) : world * result unit :=
  match json_file_path with
  | None => print result_json w
  | Some p =>
      if path_exists w p && negb overwrite then (w, Raise OSError)
      else write_file p result_json w
  end.

(** ** Vocabulary of the specification *)

(** The attributes the resolver consumes or rewrites. *)
Definition resolver_keys : list pystr :=
  [str "body"; str "source"; str "range";
   str "trim_leading_blank_lines"; str "trim_trailing_blank_lines"].

(** The attributes of a record that are neither [body] nor an extension
    attribute, with their values, in order. *)
Definition other_attrs (d : pydict) : pydict :=
  filter (λ kv, kv.1 ∉ resolver_keys) d.

(** [range = [start, end]] read as a pair of integers. *)
Definition range_bounds (v : pyval) : option (Z * Z) :=
  match v with
  | VList [a; b] =>
      match as_index a, as_index b with
      | Ok s, Ok e => Some (s, e)
      | _, _ => None
      end
  | _ => None
  end.

(** A two-element sequence [[start, end]] with [1 ≤ start ≤ end]. *)
Definition valid_range (v : pyval) : bool :=
  match range_bounds v with
  | Some (s, e) => (1 <=? s) && (s <=? e)
  | None => false
  end.

(** The attribute [k] is present and its value is the boolean [true]. *)
Definition flag_set (k : pystr) (d : pydict) : bool :=
  match dict_get k d with
  | Some (VBool true) => true
  | _ => false
  end.

(** The last character of a text is a line feed, or the text is empty. *)
Definition ends_with_lf (text : pystr) : bool :=
  match last text with
  | Some c => (c =? LF)%N
  | None => true
  end.

(** The only line boundary a text contains is the line feed. *)
Definition lf_only (text : pystr) : Prop :=
  Forall (λ c, is_linebreak c = true → c = LF) text.

Section Validity.
Variable read_text : pyval → result pystr.

(** A record the resolver accepts: its body can be acquired and its
    range, when there is one, is valid. *)
Definition valid_record (d : pydict) : Prop :=
  match dict_get (str "source") d with
  | Some path => ∃ text, read_text path = Ok text
  | None => ∃ text, dict_get (str "body") d = Some (VStr text)
  end ∧
  ∀ v, dict_get (str "range") d = Some v → valid_range v = true.

(** A parsed document whose sections are all valid records. *)
Definition valid_document (data : pydict) : Prop :=
  NoDup (dict_keys data) ∧
  Forall (λ kv, ∃ d, kv.2 = VDict d ∧ valid_record d) data.
End Validity.

(** What the conversion does to one section: the name is kept, the record
    is resolved. *)
Definition resolved_entry (read_text : pyval → result pystr)
    (i o : pystr * pyval) : Prop :=
  i.1 = o.1 ∧
  ∃ d d', i.2 = VDict d ∧ o.2 = VDict d' ∧
          process_body_data read_text d = Ok d'.

(** ** Sample inputs *)

(** The text ["a\n\nb\n"]. *)
Definition scenario_A_text : pystr := str "a" ++ [LF; LF] ++ str "b" ++ [LF].

(** The text ["l1\nl2\nl3\nl4\nl5"]. *)
Definition five_lines : pystr :=
  str "l1" ++ [LF] ++ str "l2" ++ [LF] ++ str "l3" ++ [LF] ++ str "l4"
    ++ [LF] ++ str "l5".

(** A file system without any readable file. *)
Definition no_files : pyval → result pystr := λ _, Raise OSError.

(** A file system in which every path holds the text ["a\n"]. *)
Definition one_line_files : pyval → result pystr :=
  λ _, Ok (str "a" ++ [LF]).

Definition record_range_2_4 : pydict :=
  [(str "prefix", VStr (str "p"));
   (str "body", VStr five_lines);
   (str "range", VList [VInt 2; VInt 4])].



Definition record_scenario_A : pydict :=
  [(str "prefix", VStr (str "p"));
   (str "body", VStr scenario_A_text);
   (str "trim_trailing_blank_lines", VBool true)].

Definition record_source_only : pydict :=
  [(str "source", VStr (str "file.txt"))].

Definition record_body_only : pydict :=
  [(str "body", VStr (str "a" ++ [LF]))].

Definition record_source_and_body : pydict :=
  [(str "prefix", VStr (str "p"));
   (str "body", VStr (str "ignored"));
   (str "source", VStr (str "file.txt"));
   (str "trim_leading_blank_lines", VBool false)].

(** The body ["\n\na\n\n"] with [trim_leading_blank_lines = true] and
    [trim_trailing_blank_lines = 1], which is truthy but not [true]. *)
Definition record_trim_flags : pydict :=
  [(str "body", VStr ([LF; LF] ++ str "a" ++ [LF; LF]));
   (str "trim_leading_blank_lines", VBool true);
   (str "trim_trailing_blank_lines", VInt 1)].

Definition record_without_body : pydict :=
  [(str "prefix", VStr (str "p")); (str "scope", VStr (str "cpp"))].

Definition sample_document : pydict :=
  [(str "for", VDict record_scenario_A);
   (str "lambda", VDict record_range_2_4)].

(** The [for] snippet of the module's own [example_toml]. *)
Definition example_for : pydict :=
  [(str "scope", VStr (str "cpp"));
   (str "prefix", VStr (str "for"));
   (str "description", VStr (str "insert 'for'"));
   (str "body",
    VStr (str "for(int ${1:i} = 0; ${1:i} < ${2:n}; ${1:i}++){" ++ [LF]
          ++ str "    $2" ++ [LF] ++ str "}" ++ [LF]));
   (str "trim_trailing_blank_lines", VBool true)].

(** A world in which nothing fails but what [files] shows. *)
Definition quiet_world (fs : gmap pystr node) : world :=
  World fs [] (λ _, None) (λ _ _, None) (λ _, None).

Definition sample_world : world :=
  quiet_world {[ str "out.json" := File (str "old") ]}.

(** ** Further vocabulary *)

(** ['\n'.join(lines)] *)
Fixpoint join_lf (lines : list pystr) : pystr :=
  match lines with
  | [] => []
  | [line] => line
  | line :: rest => line ++ LF :: join_lf rest
  end.

(** The attributes that exist only in the extended format. *)
Definition extension_keys : list pystr :=
  [str "source"; str "range";
   str "trim_leading_blank_lines"; str "trim_trailing_blank_lines"].

(** [lines] is a run of consecutive elements of [body]. *)
Definition segment (lines body : list pystr) : Prop :=
  ∃ pre post, body = pre ++ lines ++ post.

(** ** Further sample inputs *)

Definition resolved_range_2_4 : pydict :=
  [(str "prefix", VStr (str "p"));
   (str "body", VList [VStr (str "l2"); VStr (str "l3"); VStr (str "l4")])].

Definition resolved_source_and_body : pydict :=
  [(str "prefix", VStr (str "p")); (str "body", VList [VStr (str "a")])].

Definition record_range_1_10 : pydict :=
  [(str "range", VList [VInt 1; VInt 10])].

Definition record_body_array : pydict :=
  [(str "body", VList [VStr (str "a"); VStr (str "b")])].

(** The second section has no body; the third value is not a table. *)
Definition failing_document : pydict :=
  [(str "for", VDict record_scenario_A);
   (str "broken", VDict record_without_body);
   (str "title", VInt 1)].

Definition document_with_title : pydict :=
  [(str "title", VStr (str "my snippets"));
   (str "for", VDict record_scenario_A)].

Definition world_with_directory : world :=
  quiet_world {[ str "out" := Directory ]}.

Definition sample_world_written : world :=
  quiet_world (<[ str "new.json" := File (str "{}") ]> (files sample_world)).

(** A world whose files are encoded in ASCII: a text with a code point
    above 127 cannot be written, and leaves the opened file empty. *)
Definition ascii_world (fs : gmap pystr node) : world :=
  World fs []
    (λ _, None)
    (λ _ text,
       if forallb (λ c, (c <? 128)%N) text then None
       else Some (ValueError, []))
    (λ _, None).

Definition sample_ascii_world : world :=
  ascii_world {[ str "out.json" := File (str "old") ]}.

(** * Properties *)

(** ** The definitions on small inputs *)

Example splitlines_sample :
  splitlines
    (str "ab" ++ [13; 10] ++ str "c" ++ [10; 10; 13] ++ str "d" ++ [10])%N
  = [str "ab"; str "c"; str ""; str ""; str "d"].
Proof. reflexivity. Qed.

Example split_lf_sample :
  split_lf (str "ab" ++ [LF] ++ str "c" ++ [LF; LF] ++ str "d" ++ [LF])
  = [str "ab"; str "c"; str ""; str "d"; str ""].
Proof. reflexivity. Qed.

Example slice_sample : slice [1; 2; 3; 4; 5] 1 4 = [2; 3; 4].
Proof. reflexivity. Qed.

Example slice_past_the_end : slice [1; 2; 3] 1 10 = [2; 3].
Proof. reflexivity. Qed.

Example trim_leading_sample :
  trim_leading [str ""; str ""; str "a"; str ""; str "b"]
  = [str "a"; str ""; str "b"].
Proof. reflexivity. Qed.

Example trim_trailing_sample :
  trim_trailing [str "a"; str ""; str "b"; str ""; str ""]
  = [str "a"; str ""; str "b"].
Proof. reflexivity. Qed.

Example py_le_bool_int : py_le (VBool true) (VInt 1) = Ok true.
Proof. reflexivity. Qed.

Example py_le_str_int : py_le (VStr (str "a")) (VInt 1) = Raise TypeError.
Proof. reflexivity. Qed.

Example example_for_resolved :
  process_body_data no_files example_for
  = Ok [(str "scope", VStr (str "cpp"));
        (str "prefix", VStr (str "for"));
        (str "description", VStr (str "insert 'for'"));
        (str "body",
         VList [VStr (str "for(int ${1:i} = 0; ${1:i} < ${2:n}; ${1:i}++){");
                VStr (str "    $2");
                VStr (str "}")])].
Proof. reflexivity. Qed.

Example range_of_floats_raises :
  crop_range [str "a"; str "b"]
    [(str "range",
      VList [VFloat (S754_finite false 1 0); VFloat (S754_finite false 1 1)])]
  = Raise TypeError.
Proof. reflexivity. Qed.

Example range_of_bools_crops :
  crop_range [str "a"; str "b"]
    [(str "range", VList [VBool true; VBool true])]
  = Ok ([str "a"], []).
Proof. reflexivity. Qed.

(** ** The exception monad *)

Lemma bind_Ok {A B : Type} (m : result A) (f : A → result B) (b : B) :
  m ≫= f = Ok b ↔ ∃ a, m = Ok a ∧ f a = Ok b.
Proof.
  destruct m as [a|e]; simpl; split.
  - eauto.
  - by intros (? & [= <-] & ?).
  - discriminate.
  - by intros (? & [=] & _).
Qed.

Lemma bind_Raise {A B : Type} (m : result A) (f : A → result B) (e : pyerr) :
  m = Raise e → m ≫= f = Raise e.
Proof. by intros ->. Qed.

Lemma py_assert_Ok c u : py_assert c = Ok u ↔ c = true.
Proof. destruct c, u; simpl; split; done. Qed.

(** Split a successful run of binds into its successful steps. *)
Ltac bind_inv H :=
  repeat match type of H with
         | _ ≫= _ = Ok _ =>
             let a := fresh "a" in
             let Ha := fresh "Hstep" in
             apply bind_Ok in H as (a & Ha & H)
         end.

(** ** Dictionaries *)

Section DictFacts.
Context {V : Type}.
Implicit Types (d : list (pystr * V)) (k : pystr) (v : V).

Lemma dict_contains_get k d :
  dict_contains k d = bool_decide (is_Some (dict_get k d)).
Proof.
  induction d as [|[k' v'] d IH]; simpl; [done|].
  destruct (decide (k = k')); [|done].
  symmetry. apply bool_decide_eq_true_2. eauto.
Qed.

Lemma dict_contains_true k d :
  dict_contains k d = true ↔ ∃ v, dict_get k d = Some v.
Proof. rewrite dict_contains_get, bool_decide_eq_true. reflexivity. Qed.

Lemma dict_contains_false k d :
  dict_contains k d = false ↔ dict_get k d = None.
Proof.
  rewrite dict_contains_get, bool_decide_eq_false.
  rewrite <- eq_None_not_Some. reflexivity.
Qed.

Lemma dict_delete_absent k d : dict_get k d = None → dict_delete k d = d.
Proof.
  induction d as [|[k' v'] d IH]; simpl; [done|].
  destruct (decide (k = k')); [done|]. intros H. by rewrite IH.
Qed.

Lemma dict_get_delete k d : dict_get k (dict_delete k d) = None.
Proof.
  induction d as [|[k' v'] d IH]; simpl; [done|].
  destruct (decide (k = k')) as [->|Hne]; [done|].
  simpl. by destruct (decide (k = k')).
Qed.

Lemma dict_get_delete_ne k k' d :
  k ≠ k' → dict_get k (dict_delete k' d) = dict_get k d.
Proof.
  intros Hne. induction d as [|[k0 v0] d IH]; simpl; [done|].
  destruct (decide (k' = k0)) as [->|Hne'].
  - by destruct (decide (k = k0)).
  - simpl. by destruct (decide (k = k0)).
Qed.

Lemma dict_get_set k v d : dict_get k (dict_set k v d) = Some v.
Proof.
  induction d as [|[k' v'] d IH]; simpl.
  - by destruct (decide (k = k)).
  - destruct (decide (k = k')) as [->|Hne]; simpl.
    + by destruct (decide (k' = k')).
    + by destruct (decide (k = k')).
Qed.

Lemma dict_get_set_ne k k' v d :
  k ≠ k' → dict_get k (dict_set k' v d) = dict_get k d.
Proof.
  intros Hne. induction d as [|[k0 v0] d IH]; simpl.
  - by destruct (decide (k = k')).
  - destruct (decide (k' = k0)) as [->|Hne']; simpl.
    + by destruct (decide (k = k0)).
    + by destruct (decide (k = k0)).
Qed.

Lemma dict_pop_default_spec k v d :
  dict_pop_default k v d = (default v (dict_get k d), dict_delete k d).
Proof.
  unfold dict_pop_default. destruct (dict_get k d) eqn:E; [done|].
  by rewrite dict_delete_absent.
Qed.

Lemma dict_pop_present k v d :
  dict_get k d = Some v → dict_pop k d = Ok (v, dict_delete k d).
Proof. unfold dict_pop. by intros ->. Qed.

Lemma dict_delete_delete k k' d :
  dict_delete k (dict_delete k' d) = dict_delete k' (dict_delete k d).
Proof.
  induction d as [|[k0 v0] d IH]; simpl; [done|].
  destruct (decide (k' = k0)), (decide (k = k0)); simpl;
    repeat case_decide; try done; by rewrite IH.
Qed.

Lemma dict_delete_set_ne k k' v d :
  k ≠ k' → dict_delete k (dict_set k' v d) = dict_set k' v (dict_delete k d).
Proof.
  intros Hne. induction d as [|[k0 v0] d IH]; simpl.
  - by destruct (decide (k = k')).
  - destruct (decide (k' = k0)) as [->|Hne']; simpl.
    + destruct (decide (k = k0)); [done|]. simpl.
      by destruct (decide (k0 = k0)).
    + destruct (decide (k = k0)); simpl; [done|].
      destruct (decide (k' = k0)); [done|]. by rewrite IH.
Qed.

Lemma dict_set_set k v w d : dict_set k v (dict_set k w d) = dict_set k v d.
Proof.
  induction d as [|[k0 v0] d IH]; simpl.
  - by destruct (decide (k = k)).
  - destruct (decide (k = k0)) as [->|Hne]; simpl.
    + by destruct (decide (k0 = k0)).
    + destruct (decide (k = k0)); [done|]. by rewrite IH.
Qed.
End DictFacts.

(** ** Slices *)

Section SliceFacts.
Context {A : Type}.
Implicit Types (l : list A).

(** For [1 ≤ s ≤ e] the slice [l[s-1:e]] skips [s - 1] elements and keeps
    at most [e - (s - 1)]. *)
Lemma slice_crop l s e :
  1 ≤ s ≤ e →
  slice l (s - 1) e = take (Z.to_nat (e - (s - 1))) (drop (Z.to_nat (s - 1)) l).
Proof.
  intros Hse. unfold slice, clamp_bound.
  destruct (Z.ltb_spec (s - 1) 0); [lia|].
  destruct (Z.ltb_spec e 0); [lia|].
  destruct (Z.le_gt_cases (Z.of_nat (length l)) (s - 1)) as [Hout|Hin].
  - rewrite Z.min_r by lia.
    rewrite !drop_ge by lia. by rewrite !take_nil.
  - rewrite (Z.min_l (s - 1)) by lia.
    destruct (Z.le_gt_cases e (Z.of_nat (length l))).
    + by rewrite Z.min_l by lia.
    + rewrite Z.min_r by lia.
      rewrite !take_ge; [done | |]; rewrite length_drop; lia.
Qed.

Lemma slice_crop_length l s e :
  1 ≤ s ≤ e →
  Z.of_nat (length (slice l (s - 1) e)) =
    if s <=? Z.of_nat (length l)
    then Z.min e (Z.of_nat (length l)) - s + 1 else 0.
Proof.
  intros Hse. rewrite slice_crop by done.
  rewrite length_take, length_drop.
  destruct (Z.leb_spec s (Z.of_nat (length l))); lia.
Qed.

Lemma slice_crop_lookup l s e i :
  1 ≤ s ≤ e → s ≤ i ≤ e →
  slice l (s - 1) e !! Z.to_nat (i - s) = l !! Z.to_nat (i - 1).
Proof.
  intros Hse Hi. rewrite slice_crop by done.
  rewrite lookup_take_lt by lia. rewrite lookup_drop.
  f_equal. lia.
Qed.

Lemma slice_crop_lookup_ge l s e (j : nat) :
  1 ≤ s ≤ e → e - s + 1 ≤ Z.of_nat j → slice l (s - 1) e !! j = None.
Proof.
  intros Hse Hj. rewrite slice_crop by done.
  apply lookup_take_ge. lia.
Qed.

Lemma slice_tail l : slice l 1 (Z.of_nat (length l)) = drop 1 l.
Proof.
  unfold slice, clamp_bound.
  destruct (Z.ltb_spec 1 0); [lia|].
  destruct (Z.ltb_spec (Z.of_nat (length l)) 0); [lia|].
  rewrite Z.min_id.
  destruct l as [|x l]; [done|].
  rewrite Z.min_l by (simpl length; lia).
  apply take_ge. rewrite length_drop. simpl length. lia.
Qed.

Lemma slice_init l : slice l 0 (-1) = take (length l - 1) l.
Proof.
  unfold slice, clamp_bound. simpl.
  destruct l as [|x l]; [done|].
  rewrite Z.min_l by lia. rewrite drop_0.
  f_equal. simpl length. lia.
Qed.
End SliceFacts.

(** ** Numbers *)

Lemma num_le_Z x y : num_le (NumZ x) (NumZ y) = (x <=? y).
Proof. unfold num_le, Z.leb. simpl. by destruct (x ?= y). Qed.

Lemma py_le_index a b s e :
  as_index a = Ok s → as_index b = Ok e → py_le a b = Ok (s <=? e).
Proof.
  destruct a, b; simpl; try discriminate;
    intros [= <-] [= <-]; by rewrite num_le_Z.
Qed.

Lemma py_sub_index a b s e :
  as_index a = Ok s → as_index b = Ok e → py_sub a b = Ok (VInt (s - e)).
Proof.
  destruct a, b; simpl; try discriminate; by intros [= <-] [= <-].
Qed.

(** ** Range cropping *)

#[local] Arguments py_le : simpl never.
#[local] Arguments py_ge : simpl never.
#[local] Arguments py_sub : simpl never.
#[local] Arguments py_slice : simpl never.

Lemma crop_range_absent body data :
  dict_get (str "range") data = None → crop_range body data = Ok (body, data).
Proof.
  intros H. unfold crop_range.
  by rewrite (proj2 (dict_contains_false _ _) H).
Qed.

Lemma crop_range_present body data v :
  dict_get (str "range") data = Some v →
  crop_range body data
  = body' ← range_slice body v; Ok (body', dict_delete (str "range") data).
Proof.
  intros Hget. unfold crop_range.
  rewrite (proj2 (dict_contains_true _ _)) by eauto.
  by rewrite (dict_pop_present _ _ _ Hget).
Qed.

Lemma crop_range_bounds body data v s e :
  dict_get (str "range") data = Some v →
  range_bounds v = Some (s, e) →
  1 ≤ s ≤ e →
  crop_range body data
  = Ok (slice body (s - 1) e, dict_delete (str "range") data).
Proof.
  intros Hget Hb Hse. unfold crop_range.
  rewrite (proj2 (dict_contains_true _ _)) by eauto.
  rewrite (dict_pop_present _ _ _ Hget). unfold range_slice. simpl.
  unfold range_bounds in Hb.
  destruct v as [| | | |[|a [|b [|]]]|]; try discriminate.
  destruct (as_index a) as [s'|] eqn:Ha; [|discriminate].
  destruct (as_index b) as [e'|] eqn:Hb'; [|discriminate].
  injection Hb as -> ->. simpl.
  rewrite (py_le_index _ _ _ _ Ha Hb'). simpl.
  destruct (Z.leb_spec s e); [|lia]. simpl.
  unfold py_ge. rewrite (py_le_index (VInt 1) a 1 s eq_refl Ha). simpl.
  destruct (Z.leb_spec 1 s); [|lia]. simpl.
  rewrite (py_sub_index a (VInt 1) s 1 Ha eq_refl). simpl.
  unfold py_slice. rewrite Hb'. done.
Qed.

(** ** Blank-line trimming *)

Lemma trim_leading_nil : trim_leading [] = [].
Proof. reflexivity. Qed.

Lemma trim_leading_blank rest : trim_leading ([] :: rest) = trim_leading rest.
Proof.
  unfold trim_leading at 1. simpl length. cbn [while_loop].
  replace (leading_blank ([] :: rest)) with true by (unfold leading_blank; simpl; lia).
  change (S (length rest)) with (length (@nil N :: rest)).
  rewrite slice_tail. reflexivity.
Qed.

Lemma trim_leading_text c line rest :
  trim_leading ((c :: line) :: rest) = (c :: line) :: rest.
Proof.
  unfold trim_leading. simpl length. cbn [while_loop].
  replace (leading_blank ((c :: line) :: rest)) with false; [done|].
  unfold leading_blank. simpl. by rewrite ?andb_false_r.
Qed.

Lemma trim_trailing_nil : trim_trailing [] = [].
Proof. reflexivity. Qed.

Lemma trim_trailing_blank body : trim_trailing (body ++ [[]]) = trim_trailing body.
Proof.
  unfold trim_trailing at 1.
  rewrite length_app, Nat.add_1_r. cbn [while_loop].
  replace (trailing_blank (body ++ [[]])) with true.
  - rewrite slice_init, length_app, Nat.add_1_r.
    replace (S (length body) - 1)%nat with (length body) by lia.
    by rewrite take_app_length.
  - unfold trailing_blank. rewrite last_snoc, length_app. simpl.
    symmetry. apply andb_true_intro. split; [|done]. apply Z.ltb_lt. lia.
Qed.

Lemma trim_trailing_text body c line :
  trim_trailing (body ++ [c :: line]) = body ++ [c :: line].
Proof.
  unfold trim_trailing. rewrite length_app, Nat.add_1_r. cbn [while_loop].
  replace (trailing_blank (body ++ [c :: line])) with false; [done|].
  unfold trailing_blank. rewrite last_snoc. simpl. by rewrite ?andb_false_r.
Qed.

(** Both loops have left through their guard: the fuel was enough. *)
Lemma trim_leading_exit body : leading_blank (trim_leading body) = false.
Proof.
  induction body as [|[|c line] rest IH].
  - reflexivity.
  - by rewrite trim_leading_blank.
  - rewrite trim_leading_text. unfold leading_blank. simpl.
    by rewrite ?andb_false_r.
Qed.

Lemma trim_trailing_exit body : trailing_blank (trim_trailing body) = false.
Proof.
  induction body as [|[|c line] body IH] using rev_ind.
  - reflexivity.
  - by rewrite trim_trailing_blank.
  - rewrite trim_trailing_text. unfold trailing_blank. rewrite last_snoc.
    simpl. by rewrite ?andb_false_r.
Qed.

(** Leading trimming removes a run of empty lines from the front. *)
Lemma trim_leading_drop body :
  ∃ k, trim_leading body = drop k body ∧ Forall (λ line, line = []) (take k body).
Proof.
  induction body as [|[|c line] rest IH].
  - by exists 0%nat.
  - destruct IH as (k & Hk & Hall). exists (S k).
    rewrite trim_leading_blank. split; [done|]. simpl. by constructor.
  - exists 0%nat. rewrite trim_leading_text. by split.
Qed.

(** Trailing trimming removes a run of empty lines from the back. *)
Lemma trim_trailing_take body :
  ∃ k, trim_trailing body = take k body ∧ Forall (λ line, line = []) (drop k body).
Proof.
  induction body as [|[|c line] body IH] using rev_ind.
  - by exists 0%nat.
  - destruct IH as (k & Hk & Hall). rewrite trim_trailing_blank.
    destruct (decide (k ≤ length body)%nat).
    + exists k. rewrite take_app_le, drop_app_le by done.
      split; [done|]. apply Forall_app. split; [done|]. by constructor.
    + exists (length body). rewrite take_app_length, drop_app_length.
      split; [|by constructor].
      rewrite Hk. apply take_ge. lia.
  - exists (S (length body)). rewrite trim_trailing_text.
    rewrite take_ge, drop_ge by (rewrite length_app; simpl; lia).
    by split.
Qed.

Lemma leading_blank_head body :
  leading_blank body = true ↔ head body = Some [].
Proof.
  unfold leading_blank. destruct body as [|[|c line] rest]; simpl.
  - split; discriminate.
  - by split.
  - rewrite ?andb_false_r. split; discriminate.
Qed.

Lemma trailing_blank_last body :
  trailing_blank body = true ↔ last body = Some [].
Proof.
  unfold trailing_blank.
  destruct body as [|[|c line] body _] using rev_ind.
  - simpl. split; discriminate.
  - rewrite last_snoc, length_app. simpl. split; [done|]. intros _.
    apply andb_true_intro. split; [|done]. apply Z.ltb_lt. lia.
  - rewrite last_snoc. simpl. rewrite ?andb_false_r. split; discriminate.
Qed.

Lemma trim_leading_fixed body :
  head body ≠ Some [] → trim_leading body = body.
Proof.
  destruct body as [|[|c line] rest]; intros H.
  - reflexivity.
  - by destruct H.
  - apply trim_leading_text.
Qed.

Lemma trim_trailing_fixed body :
  last body ≠ Some [] → trim_trailing body = body.
Proof.
  destruct body as [|[|c line] body _] using rev_ind; intros H.
  - reflexivity.
  - rewrite last_snoc in H. by destruct H.
  - apply trim_trailing_text.
Qed.

Lemma trim_leading_head body : head (trim_leading body) ≠ Some [].
Proof.
  intros H. apply leading_blank_head in H.
  by rewrite trim_leading_exit in H.
Qed.

Lemma trim_trailing_last body : last (trim_trailing body) ≠ Some [].
Proof.
  intros H. apply trailing_blank_last in H.
  by rewrite trim_trailing_exit in H.
Qed.

(** ** Body acquisition *)

(** Two attribute names written as literals are different keys. *)
Ltac key_neq :=
  let H := fresh in intros H; vm_compute in H; discriminate H.

Section ResolverFacts.
Variable read_text : pyval → result pystr.

Lemma acquire_body_source data path text :
  dict_get (str "source") data = Some path →
  read_text path = Ok text →
  acquire_body read_text data
  = Ok (splitlines text, dict_delete (str "source") data).
Proof.
  intros Hget Hread. unfold acquire_body.
  rewrite (proj2 (dict_contains_true _ _)) by eauto.
  rewrite (dict_pop_present _ _ _ Hget). simpl. by rewrite Hread.
Qed.

Lemma acquire_body_source_fails data path e :
  dict_get (str "source") data = Some path →
  read_text path = Raise e →
  acquire_body read_text data = Raise e.
Proof.
  intros Hget Hread. unfold acquire_body.
  rewrite (proj2 (dict_contains_true _ _)) by eauto.
  rewrite (dict_pop_present _ _ _ Hget). simpl. by rewrite Hread.
Qed.

Lemma acquire_body_inline data text :
  dict_get (str "source") data = None →
  dict_get (str "body") data = Some (VStr text) →
  acquire_body read_text data = Ok (split_lf text, data).
Proof.
  intros Hsrc Hbody. unfold acquire_body, dict_getitem.
  rewrite (proj2 (dict_contains_false _ _) Hsrc).
  by rewrite Hbody.
Qed.

(** Acquisition removes [source] and nothing else. *)
Lemma acquire_body_data data body d1 :
  acquire_body read_text data = Ok (body, d1) →
  d1 = dict_delete (str "source") data.
Proof.
  unfold acquire_body, dict_pop, dict_getitem.
  destruct (dict_contains (str "source") data) eqn:Hc.
  - apply dict_contains_true in Hc as [path Hget]. rewrite Hget. simpl.
    destruct (read_text path); simpl; [|discriminate]. by intros [= _ <-].
  - apply dict_contains_false in Hc.
    destruct (dict_get (str "body") data) as [v|]; simpl; [|discriminate].
    destruct (py_split_lf v); simpl; [|discriminate].
    intros [= _ <-]. by rewrite dict_delete_absent.
Qed.

(** Cropping removes [range] and nothing else. *)
Lemma crop_range_data body data body' d2 :
  crop_range body data = Ok (body', d2) →
  d2 = dict_delete (str "range") data.
Proof.
  unfold crop_range, dict_pop.
  destruct (dict_contains (str "range") data) eqn:Hc.
  - apply dict_contains_true in Hc as [v Hget]. rewrite Hget.
    cbn [mbind result_bind]. intros H. bind_inv H. by simplify_eq.
  - apply dict_contains_false in Hc.
    intros [= _ <-]. by rewrite dict_delete_absent.
Qed.

(** C1. For a record whose acquired body has N lines and whose range is
    [[s, e]] with 1 ≤ s ≤ e, range cropping succeeds and keeps exactly
    the lines s..e (1-indexed, inclusive), that is the slice [s-1, e) of
    the body: the cropped body has min(e, N) - s + 1 lines when s ≤ N and
    none when s > N, an end beyond N being cut to N without an error. *)
Theorem range_law data body d1 s e :
  acquire_body read_text data = Ok (body, d1) →
  dict_get (str "range") data = Some (VList [VInt s; VInt e]) →
  1 ≤ s ≤ e →
  let n := Z.of_nat (length body) in
  ∃ cropped,
    crop_range body d1 = Ok (cropped, dict_delete (str "range") d1) ∧
    cropped = take (Z.to_nat (e - (s - 1))) (drop (Z.to_nat (s - 1)) body) ∧
    (∀ i, s ≤ i ≤ e → cropped !! Z.to_nat (i - s) = body !! Z.to_nat (i - 1)) ∧
    (s ≤ n → Z.of_nat (length cropped) = Z.min e n - s + 1) ∧
    (n < s → length cropped = 0%nat).
Proof.
  intros Hacq Hget Hse n.
  apply acquire_body_data in Hacq as ->.
  exists (slice body (s - 1) e). split; [|split; [|split; [|split]]].
  - apply crop_range_bounds with (v := VList [VInt s; VInt e]); [|done..].
    rewrite dict_get_delete_ne by key_neq. done.
  - by apply slice_crop.
  - intros i Hi. by apply slice_crop_lookup.
  - intros Hn. rewrite slice_crop_length by done.
    fold n. destruct (Z.leb_spec s n); [done|lia].
  - intros Hn. apply Nat2Z.inj. rewrite slice_crop_length by done.
    fold n. destruct (Z.leb_spec s n); [lia|done].
Qed.

(** *** The whole resolver, step by step *)

Lemma py_is_True_default k d :
  py_is_True (default (VBool false) (dict_get k d)) = flag_set k d.
Proof.
  unfold flag_set. by destruct (dict_get k d) as [[| | |[]| |]|].
Qed.

Lemma process_body_data_steps data body d1 cropped d2 :
  acquire_body read_text data = Ok (body, d1) →
  crop_range body d1 = Ok (cropped, d2) →
  let lead :=
    if flag_set (str "trim_leading_blank_lines") data
    then trim_leading cropped else cropped in
  let trail :=
    if flag_set (str "trim_trailing_blank_lines") data
    then trim_trailing lead else lead in
  process_body_data read_text data
  = Ok (dict_set (str "body") (VList (VStr <$> trail))
          (dict_delete (str "trim_trailing_blank_lines")
             (dict_delete (str "trim_leading_blank_lines") d2))).
Proof.
  intros Hacq Hcrop lead trail. unfold process_body_data.
  rewrite Hacq. cbn [mbind result_bind]. rewrite Hcrop. cbn [mbind result_bind].
  unfold trim_leading_step, trim_trailing_step.
  rewrite !dict_pop_default_spec, !py_is_True_default.
  apply acquire_body_data in Hacq as ->.
  apply crop_range_data in Hcrop as ->.
  unfold flag_set.
  rewrite !dict_get_delete_ne by key_neq.
  reflexivity.
Qed.

Lemma process_body_data_acquire_fails data e :
  acquire_body read_text data = Raise e →
  process_body_data read_text data = Raise e.
Proof. intros H. unfold process_body_data. by rewrite H. Qed.

Lemma process_body_data_crop_fails data body d1 e :
  acquire_body read_text data = Ok (body, d1) →
  crop_range body d1 = Raise e →
  process_body_data read_text data = Raise e.
Proof.
  intros Hacq Hcrop. unfold process_body_data.
  rewrite Hacq. cbn [mbind result_bind]. by rewrite Hcrop.
Qed.
End ResolverFacts.

Lemma flag_set_true k d :
  flag_set k d = true ↔ dict_get k d = Some (VBool true).
Proof.
  unfold flag_set. destruct (dict_get k d) as [[| | |[]| |]|]; split; congruence.
Qed.

Lemma flag_set_false k d :
  flag_set k d = false ↔ dict_get k d ≠ Some (VBool true).
Proof.
  rewrite <- flag_set_true. destruct (flag_set k d); split; congruence.
Qed.

(** ** Scenarios and laws of the resolver *)

Section ResolverLaws.
Variable read_text : pyval → result pystr.

(** C2. A record without [source] and [range], whose [body] is the text
    ["a\n\nb\n"] and whose [trim_trailing_blank_lines] is [true], resolves
    to the body lines ["a"], [""], ["b"]: the empty line after the final
    line feed is removed, the blank line inside is kept. *)
Theorem scenario_A data :
  dict_get (str "source") data = None →
  dict_get (str "range") data = None →
  dict_get (str "body") data = Some (VStr scenario_A_text) →
  dict_get (str "trim_trailing_blank_lines") data = Some (VBool true) →
  ∃ out,
    process_body_data read_text data = Ok out ∧
    dict_get (str "body") out
    = Some (VList [VStr (str "a"); VStr (str ""); VStr (str "b")]).
Proof.
  intros Hsrc Hrange Hbody Htrail.
  pose proof (acquire_body_inline read_text _ _ Hsrc Hbody) as Hacq.
  pose proof (crop_range_absent (split_lf scenario_A_text) _ Hrange) as Hcrop.
  eexists. split.
  - apply (process_body_data_steps read_text _ _ _ _ _ Hacq Hcrop).
  - rewrite dict_get_set.
    rewrite (proj2 (flag_set_true _ _) Htrail).
    by destruct (flag_set (str "trim_leading_blank_lines") data).
Qed.

(** C9. Once the body is acquired and cropped, resolution succeeds
    whatever the two trim attributes hold, and each trimming is applied
    exactly when its attribute is present with the boolean value [true].
    Applied, the leading trimming removes the empty lines at the front up
    to the first line that is not empty, and the trailing trimming the
    empty lines at the back down to the last line that is not empty; an
    absent attribute and any other value, truthy or not, leave the body as
    it is. *)
Theorem trim_flags_exact data body d1 cropped d2 :
  acquire_body read_text data = Ok (body, d1) →
  crop_range body d1 = Ok (cropped, d2) →
  ∃ lead trail,
    process_body_data read_text data
    = Ok (dict_set (str "body") (VList (VStr <$> trail))
            (dict_delete (str "trim_trailing_blank_lines")
               (dict_delete (str "trim_leading_blank_lines") d2))) ∧
    (dict_get (str "trim_leading_blank_lines") data = Some (VBool true) →
     ∃ k, lead = drop k cropped ∧
          Forall (λ line, line = []) (take k cropped) ∧
          head lead ≠ Some []) ∧
    (dict_get (str "trim_leading_blank_lines") data ≠ Some (VBool true) →
     lead = cropped) ∧
    (dict_get (str "trim_trailing_blank_lines") data = Some (VBool true) →
     ∃ k, trail = take k lead ∧
          Forall (λ line, line = []) (drop k lead) ∧
          last trail ≠ Some []) ∧
    (dict_get (str "trim_trailing_blank_lines") data ≠ Some (VBool true) →
     trail = lead).
Proof.
  intros Hacq Hcrop.
  pose proof (process_body_data_steps read_text _ _ _ _ _ Hacq Hcrop) as Hsteps.
  cbv zeta in Hsteps.
  set (lead := if flag_set (str "trim_leading_blank_lines") data
               then trim_leading cropped else cropped) in *.
  exists lead.
  exists (if flag_set (str "trim_trailing_blank_lines") data
          then trim_trailing lead else lead).
  split; [exact Hsteps|].
  split; [|split; [|split]]; intros H.
  - subst lead. rewrite (proj2 (flag_set_true _ _) H).
    destruct (trim_leading_drop cropped) as (k & Hk & Hall).
    exists k. split; [done|]. split; [done|]. apply trim_leading_head.
  - subst lead. by rewrite (proj2 (flag_set_false _ _) H).
  - rewrite (proj2 (flag_set_true _ _) H).
    destruct (trim_trailing_take lead) as (k & Hk & Hall).
    exists k. split; [done|]. split; [done|]. apply trim_trailing_last.
  - by rewrite (proj2 (flag_set_false _ _) H).
Qed.

(** C10. A record with neither a [source] nor a [body] attribute is not
    resolved: looking up [body] raises [KeyError], and no default body is
    supplied. *)
Theorem missing_body_fails data :
  dict_get (str "source") data = None →
  dict_get (str "body") data = None →
  process_body_data read_text data = Raise KeyError.
Proof.
  intros Hsrc Hbody. apply process_body_data_acquire_fails.
  unfold acquire_body, dict_getitem.
  rewrite (proj2 (dict_contains_false _ _) Hsrc). by rewrite Hbody.
Qed.
End ResolverLaws.

(** ** Splitting a text into lines *)

Lemma splitlines_nil s : splitlines s = [] → s = [].
Proof.
  destruct s as [|c s]; [done|]. simpl.
  destruct (is_linebreak c).
  - destruct s as [|d s]; [done|].
    by destruct ((c =? 13)%N && (d =? LF)%N).
  - by destruct (splitlines s).
Qed.

Lemma ends_with_lf_cons c d s : ends_with_lf (c :: d :: s) = ends_with_lf (d :: s).
Proof. reflexivity. Qed.

(** On a text whose only line boundary is the line feed, [split('\n')]
    yields the lines of [splitlines()], and one more, empty, piece when the
    text is empty or ends with a line feed. *)
Lemma split_lf_splitlines text :
  lf_only text →
  split_lf text = splitlines text ++ (if ends_with_lf text then [[]] else []).
Proof.
  induction 1 as [|c s Hc Hs IH]; [done|].
  simpl split_lf. simpl splitlines.
  destruct (N.eqb_spec c LF) as [->|Hne].
  - change (is_linebreak LF) with true. cbn match.
    destruct s as [|d s]; [done|].
    change ((LF =? 13)%N) with false. cbn [andb].
    rewrite ends_with_lf_cons, IH. done.
  - destruct (is_linebreak c) eqn:Hbrk; [by specialize (Hc eq_refl)|].
    destruct s as [|d s].
    + simpl. unfold ends_with_lf. simpl.
      by destruct (N.eqb_spec c LF).
    + rewrite ends_with_lf_cons, IH.
      destruct (splitlines (d :: s)) as [|line lines] eqn:Hl.
      * by apply splitlines_nil in Hl.
      * done.
Qed.

Section Acquisition.
Variable read_text : pyval → result pystr.

(** C3, as amended. For a text whose only line boundary is the line
    feed, the lines acquired from a source file holding the text are the
    lines acquired from the same text given as [body], except that the
    body has one more, empty, last line when the text is empty or ends
    with a line feed. *)
Theorem source_lines_vs_body_lines d1 d2 path text :
  dict_get (str "source") d1 = Some path →
  read_text path = Ok text →
  dict_get (str "source") d2 = None →
  dict_get (str "body") d2 = Some (VStr text) →
  lf_only text →
  ∃ lines,
    acquire_body read_text d1 = Ok (lines, dict_delete (str "source") d1) ∧
    acquire_body read_text d2
    = Ok (lines ++ (if ends_with_lf text then [[]] else []), d2).
Proof.
  intros Hsrc Hread Hnosrc Hbody Hlf.
  exists (splitlines text). split.
  - by apply acquire_body_source with (path := path).
  - rewrite <- split_lf_splitlines by done.
    by apply acquire_body_inline.
Qed.
End Acquisition.

(** ** Invalid ranges *)






Lemma valid_range_bounds v :
  valid_range v = true → ∃ s e, range_bounds v = Some (s, e) ∧ 1 ≤ s ≤ e.
Proof.
  unfold valid_range. destruct (range_bounds v) as [[s e]|]; [|discriminate].
  intros H. apply andb_true_iff in H as [H1 H2].
  exists s, e. split; [done|]. split; [by apply Z.leb_le|by apply Z.leb_le].
Qed.


Example range_of_two_characters_raises :
  crop_range [str "a"; str "b"] [(str "range", VStr (str "12"))]
  = Raise TypeError.
Proof. reflexivity. Qed.

Example range_table_raises :
  crop_range [str "a"; str "b"]
    [(str "range", VDict [(str "start", VInt 1); (str "end", VInt 2)])]
  = Raise KeyError.
Proof. reflexivity. Qed.

Section RangeErrors.
Variable read_text : pyval → result pystr.

End RangeErrors.

(** ** What resolution leaves in the record *)

Lemma other_attrs_delete k d :
  k ∈ resolver_keys → other_attrs (dict_delete k d) = other_attrs d.
Proof.
  intros Hk. unfold other_attrs.
  induction d as [|[k' v'] d IH]; [done|]. simpl.
  destruct (decide (k = k')) as [<-|Hne].
  - rewrite filter_cons_False; [done|]. simpl. by intros H.
  - by rewrite !filter_cons, IH.
Qed.

Lemma other_attrs_set k v d :
  k ∈ resolver_keys → other_attrs (dict_set k v d) = other_attrs d.
Proof.
  intros Hk. unfold other_attrs.
  induction d as [|[k' v'] d IH]; simpl.
  - rewrite filter_cons_False; [done|]. simpl. by intros H.
  - destruct (decide (k = k')) as [<-|Hne].
    + rewrite !filter_cons_False; [done|simpl; by intros H..].
    + by rewrite !filter_cons, IH.
Qed.

Lemma dict_set_fresh {V : Type} k (v : V) d :
  k ∉ dict_keys d → dict_set k v d = d ++ [(k, v)].
Proof.
  induction d as [|[k' v'] d IH]; simpl; [done|].
  intros Hk. apply not_elem_of_cons in Hk as [Hne Hk].
  destruct (decide (k = k')); [done|]. by rewrite IH.
Qed.

(** Every resolver key is one of five literals. *)
Ltac key_in := unfold resolver_keys; set_solver.

Section Records.
Variable read_text : pyval → result pystr.

(** The result of a successful resolution, spelled out. *)
Lemma process_body_data_Ok data out :
  process_body_data read_text data = Ok out →
  ∃ body cropped,
    acquire_body read_text data = Ok (body, dict_delete (str "source") data) ∧
    crop_range body (dict_delete (str "source") data)
    = Ok (cropped, dict_delete (str "range") (dict_delete (str "source") data)) ∧
    ∃ lines,
      out = dict_set (str "body") (VList (VStr <$> lines))
              (dict_delete (str "trim_trailing_blank_lines")
                 (dict_delete (str "trim_leading_blank_lines")
                    (dict_delete (str "range")
                       (dict_delete (str "source") data)))).
Proof.
  intros H. pose proof H as H'. unfold process_body_data in H'.
  apply bind_Ok in H' as ([body d1] & Hacq & H').
  apply bind_Ok in H' as ([cropped d2] & Hcrop & _).
  pose proof (acquire_body_data _ _ _ _ Hacq) as ->.
  pose proof (crop_range_data _ _ _ _ Hcrop) as ->.
  exists body, cropped. split; [done|]. split; [done|].
  rewrite (process_body_data_steps _ _ _ _ _ _ Hacq Hcrop) in H.
  injection H as <-. eauto.
Qed.

(** With a [source], the result does not depend on the [body] attribute. *)
Lemma acquire_body_set_body data path v :
  dict_get (str "source") data = Some path →
  acquire_body read_text (dict_set (str "body") v data)
  = text ← read_text path;
    Ok (splitlines text,
        dict_set (str "body") v (dict_delete (str "source") data)).
Proof.
  intros Hsrc. unfold acquire_body.
  rewrite (proj2 (dict_contains_true _ _)); last first.
  { exists path. by rewrite dict_get_set_ne by key_neq. }
  unfold dict_pop. rewrite dict_get_set_ne by key_neq. rewrite Hsrc.
  cbn [mbind result_bind].
  by rewrite dict_delete_set_ne by key_neq.
Qed.

Lemma crop_range_set_body body data v :
  crop_range body (dict_set (str "body") v data)
  = '(body', d) ← crop_range body data;
    Ok (body', dict_set (str "body") v d).
Proof.
  destruct (dict_get (str "range") data) as [r|] eqn:Hr.
  - rewrite (crop_range_present body data r Hr).
    rewrite (crop_range_present body _ r)
      by (by rewrite dict_get_set_ne by key_neq).
    destruct (range_slice body r); cbn [mbind result_bind]; [|done].
    by rewrite dict_delete_set_ne by key_neq.
  - rewrite (crop_range_absent body data Hr).
    by rewrite crop_range_absent by (by rewrite dict_get_set_ne by key_neq).
Qed.

Lemma process_body_data_set_body data path v :
  dict_get (str "source") data = Some path →
  process_body_data read_text (dict_set (str "body") v data)
  = process_body_data read_text data.
Proof.
  intros Hsrc.
  destruct (read_text path) as [text|e] eqn:Hread.
  2: { transitivity (@Raise pydict e).
       - apply process_body_data_acquire_fails.
         rewrite (acquire_body_set_body _ _ _ Hsrc). by rewrite Hread.
       - symmetry. apply process_body_data_acquire_fails.
         by apply acquire_body_source_fails with (path := path). }
  pose proof (acquire_body_source _ _ _ _ Hsrc Hread) as Hacq.
  pose proof (acquire_body_set_body _ _ v Hsrc) as Hacq'.
  rewrite Hread in Hacq'. cbn [mbind result_bind] in Hacq'.
  destruct (crop_range (splitlines text) (dict_delete (str "source") data))
    as [[cropped d2]|e] eqn:Hcrop.
  2: { transitivity (@Raise pydict e).
       - apply process_body_data_crop_fails
           with (body := splitlines text)
                (d1 := dict_set (str "body") v (dict_delete (str "source") data));
           [done|]. by rewrite crop_range_set_body, Hcrop.
       - symmetry.
         by apply process_body_data_crop_fails
           with (body := splitlines text) (d1 := dict_delete (str "source") data). }
  rewrite (process_body_data_steps _ _ _ _ _ _ Hacq Hcrop).
  erewrite process_body_data_steps; [|exact Hacq'|]; last first.
  { rewrite crop_range_set_body, Hcrop. reflexivity. }
  unfold flag_set. rewrite !dict_get_set_ne by key_neq.
  rewrite !dict_delete_set_ne by key_neq.
  by rewrite dict_set_set.
Qed.

(** C5. In a record with a [source], the file decides the body and the
    inline [body] is ignored: the acquired lines are the lines of the
    file, and overwriting [body] with any value leaves the outcome of the
    resolution unchanged. Every resolved record has no [source], [range],
    [trim_leading_blank_lines] or [trim_trailing_blank_lines] attribute,
    and its [body] is a list of strings. *)
Theorem source_precedence_and_cleanup data :
  (∀ path v,
     dict_get (str "source") data = Some path →
     process_body_data read_text (dict_set (str "body") v data)
     = process_body_data read_text data ∧
     ∀ text, read_text path = Ok text →
       ∃ d1, acquire_body read_text (dict_set (str "body") v data)
             = Ok (splitlines text, d1)) ∧
  (∀ out,
     process_body_data read_text data = Ok out →
     dict_get (str "source") out = None ∧
     dict_get (str "range") out = None ∧
     dict_get (str "trim_leading_blank_lines") out = None ∧
     dict_get (str "trim_trailing_blank_lines") out = None ∧
     ∃ lines, dict_get (str "body") out = Some (VList (VStr <$> lines))).
Proof.
  split.
  - intros path v Hsrc. split.
    + by apply process_body_data_set_body with (path := path).
    + intros text Hread. rewrite (acquire_body_set_body _ _ _ Hsrc), Hread.
      eauto.
  - intros out Hout.
    apply process_body_data_Ok in Hout as (_ & _ & _ & _ & lines & ->).
    repeat split.
    + rewrite dict_get_set_ne by key_neq.
      rewrite !dict_get_delete_ne by key_neq. apply dict_get_delete.
    + rewrite dict_get_set_ne by key_neq.
      rewrite !dict_get_delete_ne by key_neq. apply dict_get_delete.
    + rewrite dict_get_set_ne by key_neq.
      rewrite dict_get_delete_ne by key_neq. apply dict_get_delete.
    + rewrite dict_get_set_ne by key_neq. apply dict_get_delete.
    + exists lines. apply dict_get_set.
Qed.

(** Resolution keeps every other attribute, with its value, in place. *)
Lemma process_body_data_other_attrs data out :
  process_body_data read_text data = Ok out →
  other_attrs out = other_attrs data.
Proof.
  intros Hout.
  apply process_body_data_Ok in Hout as (_ & _ & _ & _ & lines & ->).
  rewrite other_attrs_set by key_in.
  by rewrite !other_attrs_delete by key_in.
Qed.

Lemma valid_record_resolves d :
  valid_record read_text d → ∃ out, process_body_data read_text d = Ok out.
Proof.
  intros [Hbody Hrange].
  assert (∃ body, acquire_body read_text d
                  = Ok (body, dict_delete (str "source") d)) as [body Hacq].
  { destruct (dict_get (str "source") d) as [path|] eqn:Hsrc.
    - destruct Hbody as [text Hread]. eexists.
      by apply acquire_body_source with (path := path).
    - destruct Hbody as [text Htext]. eexists.
      rewrite dict_delete_absent by done. by apply acquire_body_inline. }
  assert (∃ cropped d2, crop_range body (dict_delete (str "source") d)
                        = Ok (cropped, d2)) as (cropped & d2 & Hcrop).
  { destruct (dict_get (str "range") d) as [v|] eqn:Hr.
    - destruct (valid_range_bounds v (Hrange v eq_refl)) as (s & e & Hb & Hse).
      eexists _, _. apply crop_range_bounds with (v := v); [|done..].
      by rewrite dict_get_delete_ne by key_neq.
    - eexists _, _. apply crop_range_absent.
      by rewrite dict_get_delete_ne by key_neq. }
  eexists.
  by apply process_body_data_steps
    with (body := body) (d1 := dict_delete (str "source") d) (d2 := d2).
Qed.
End Records.

(** ** The conversion *)

Section Conversion.
Variable read_text : pyval → result pystr.
Variable toml_loads : pystr → result pydict.
Variable json_dumps : pydict → result pystr.

Lemma process_value_Ok v v' :
  process_value read_text v = Ok v' →
  ∃ d d', v = VDict d ∧ v' = VDict d' ∧ process_body_data read_text d = Ok d'.
Proof.
  destruct v as [s| | | | |d]; simpl; try discriminate.
  - by destruct (str_contains (str "source") s).
  - destruct (process_body_data read_text d) as [d'|] eqn:Hd; simpl;
      [|discriminate].
    intros [= <-]. eauto.
Qed.

(** Over items with distinct names that are not yet in [acc], the
    comprehension appends one resolved entry per item, in order. *)
Lemma dict_comprehension_Ok items : ∀ acc out,
  NoDup (dict_keys acc ++ dict_keys items) →
  dict_comprehension read_text items acc = Ok out →
  ∃ news, out = acc ++ news ∧ Forall2 (resolved_entry read_text) items news.
Proof.
  induction items as [|[k v] items IH]; intros acc out Hnd H.
  - injection H as <-. exists []. by rewrite app_nil_r.
  - simpl in H. apply bind_Ok in H as (v' & Hv & H).
    assert (Hk : k ∉ dict_keys acc).
    { apply NoDup_app in Hnd as (_ & Hdisj & _).
      intros Hin. apply (Hdisj k Hin). unfold dict_keys. simpl. left. }
    rewrite (dict_set_fresh k v' acc Hk) in H.
    apply IH in H as (news & -> & Hall).
    + exists ((k, v') :: news). split; [by rewrite <- app_assoc|].
      constructor; [|done].
      split; [done|]. by apply process_value_Ok.
    + unfold dict_keys in *. rewrite map_app. simpl.
      rewrite <- app_assoc. exact Hnd.
Qed.

Lemma dict_comprehension_valid items : ∀ acc,
  Forall (λ kv, ∃ d, kv.2 = VDict d ∧ valid_record read_text d) items →
  ∃ out, dict_comprehension read_text items acc = Ok out.
Proof.
  induction items as [|[k v] items IH]; intros acc Hall; [by eexists|].
  apply Forall_cons in Hall as [(d & Hv & Hd) Hall]. simpl in Hv. subst v.
  destruct (valid_record_resolves read_text d Hd) as [d' Hd'].
  simpl. rewrite Hd'. simpl. apply IH, Hall.
Qed.

(** C6. A valid document is converted, and the mapping handed to the
    serializer has the snippet names of the input, in the same order;
    under each name, the attributes other than [body], [source], [range]
    and the two trim flags are those of the input record, in the same
    order and with the same values, whether the resolver knows them or
    not. *)
Theorem pass_through toml_str data :
  toml_loads toml_str = Ok data →
  valid_document read_text data →
  ∃ out,
    dict_comprehension read_text data [] = Ok out ∧
    convert_toml_string read_text toml_loads json_dumps toml_str
    = json_dumps out ∧
    dict_keys out = dict_keys data ∧
    Forall2 (λ i o, i.1 = o.1 ∧
                    ∃ d d', i.2 = VDict d ∧ o.2 = VDict d' ∧
                            other_attrs d' = other_attrs d) data out.
Proof.
  intros Hload [Hnd Hvalid].
  destruct (dict_comprehension_valid data [] Hvalid) as [out Hout].
  exists out. split; [done|]. split.
  { unfold convert_toml_string. rewrite Hload. simpl. by rewrite Hout. }
  apply dict_comprehension_Ok in Hout as (news & -> & Hall); [|done].
  simpl. split.
  - unfold dict_keys. clear Hnd Hvalid Hload.
    induction Hall as [|i o items news [Hk _] _ IH]; [done|].
    simpl. by rewrite Hk, IH.
  - eapply Forall2_impl; [exact Hall|].
    intros i o (Hk & d & d' & Hi & Ho & Hres). split; [done|].
    exists d, d'. split; [done|]. split; [done|].
    by apply process_body_data_other_attrs with (read_text := read_text).
Qed.
End Conversion.

(** ** Output *)

(** C8. When a file exists at the destination and [overwrite] is false,
    [output_result] raises [OSError] and writes nothing: the file system
    and standard output are as before, and the destination file keeps its
    contents. *)
Theorem output_result_existing_destination w p content result_json :
  files w !! p = Some (File content) →
  ∃ w',
    output_result result_json (Some p) false w = (w', Raise OSError) ∧
    w' = w ∧
    files w' !! p = Some (File content).
Proof.
  intros Hfile. exists w. unfold output_result, path_exists.
  rewrite bool_decide_eq_true_2 by (rewrite Hfile; eauto).
  by repeat split.
Qed.

(** * The theorems at sample inputs *)

Lemma range_law_witness :
  acquire_body no_files record_range_2_4
  = Ok (split_lf five_lines, record_range_2_4) ∧
  dict_get (str "range") record_range_2_4 = Some (VList [VInt 2; VInt 4]) ∧
  1 ≤ 2 ≤ 4 ∧
  crop_range (split_lf five_lines) record_range_2_4
  = Ok ([str "l2"; str "l3"; str "l4"],
        [(str "prefix", VStr (str "p")); (str "body", VStr five_lines)]).
Proof.
  assert (H24 : 1 ≤ 2 ≤ 4) by lia.
  split; [reflexivity|]. split; [reflexivity|]. split; [exact H24|].
  destruct (range_law no_files record_range_2_4 (split_lf five_lines)
              record_range_2_4 2 4 eq_refl eq_refl H24)
    as (cropped & Hcrop & -> & _).
  exact Hcrop.
Defined.

Lemma scenario_A_witness :
  dict_get (str "source") record_scenario_A = None ∧
  dict_get (str "range") record_scenario_A = None ∧
  dict_get (str "body") record_scenario_A = Some (VStr scenario_A_text) ∧
  dict_get (str "trim_trailing_blank_lines") record_scenario_A
  = Some (VBool true) ∧
  ∃ out,
    process_body_data no_files record_scenario_A = Ok out ∧
    dict_get (str "body") out
    = Some (VList [VStr (str "a"); VStr (str ""); VStr (str "b")]).
Proof.
  repeat (split; [reflexivity|]).
  exact (scenario_A no_files record_scenario_A eq_refl eq_refl eq_refl eq_refl).
Defined.

Lemma source_body_differ :
  acquire_body one_line_files record_source_only = Ok ([str "a"], []) ∧
  acquire_body one_line_files record_body_only
  = Ok ([str "a"; str ""], record_body_only) ∧
  [str "a"] ≠ [str "a"; str ""].
Proof. split; [reflexivity|]. split; [reflexivity|]. discriminate. Qed.

Lemma source_lines_vs_body_lines_witness :
  dict_get (str "source") record_source_only = Some (VStr (str "file.txt")) ∧
  one_line_files (VStr (str "file.txt")) = Ok (str "a" ++ [LF]) ∧
  dict_get (str "source") record_body_only = None ∧
  dict_get (str "body") record_body_only = Some (VStr (str "a" ++ [LF])) ∧
  lf_only (str "a" ++ [LF]) ∧
  ∃ lines,
    acquire_body one_line_files record_source_only = Ok (lines, []) ∧
    acquire_body one_line_files record_body_only
    = Ok (lines ++ [[]], record_body_only).
Proof.
  assert (Hlf : lf_only (str "a" ++ [LF])).
  { repeat constructor; discriminate. }
  repeat (split; [reflexivity|]). split; [exact Hlf|].
  exact (source_lines_vs_body_lines one_line_files record_source_only
           record_body_only (VStr (str "file.txt")) (str "a" ++ [LF])
           eq_refl eq_refl eq_refl eq_refl Hlf).
Defined.



Lemma source_precedence_and_cleanup_witness :
  dict_get (str "source") record_source_and_body = Some (VStr (str "file.txt")) ∧
  process_body_data one_line_files record_source_and_body
  = Ok [(str "prefix", VStr (str "p")); (str "body", VList [VStr (str "a")])] ∧
  process_body_data one_line_files
    (dict_set (str "body") (VInt 7) record_source_and_body)
  = process_body_data one_line_files record_source_and_body ∧
  dict_get (str "source")
    [(str "prefix", VStr (str "p")); (str "body", VList [VStr (str "a")])]
  = None.
Proof.
  destruct (source_precedence_and_cleanup one_line_files record_source_and_body)
    as [Hsrc Hout].
  split; [reflexivity|]. split; [reflexivity|]. split.
  - exact (proj1 (Hsrc (VStr (str "file.txt")) (VInt 7) eq_refl)).
  - exact (proj1 (Hout _ eq_refl)).
Defined.

Lemma sample_document_valid : valid_document no_files sample_document.
Proof.
  split.
  - apply (bool_decide_unpack _). vm_compute. exact I.
  - repeat constructor.
    + exists record_scenario_A. split; [reflexivity|]. split.
      * by exists scenario_A_text.
      * intros v H. discriminate H.
    + exists record_range_2_4. split; [reflexivity|]. split.
      * by exists five_lines.
      * intros v H. injection H as <-. reflexivity.
Defined.

Lemma pass_through_witness :
  valid_document no_files sample_document ∧
  ∃ out,
    dict_comprehension no_files sample_document [] = Ok out ∧
    convert_toml_string no_files (λ _, Ok sample_document) (λ _, Ok [])
      (str "[for]") = Ok [] ∧
    dict_keys out = [str "for"; str "lambda"].
Proof.
  split; [exact sample_document_valid|].
  destruct (pass_through no_files (λ _, Ok sample_document) (λ _, Ok [])
              (str "[for]") sample_document eq_refl sample_document_valid)
    as (out & Hout & Hconv & Hkeys & _).
  exists out. split; [exact Hout|]. split; [exact Hconv|exact Hkeys].
Defined.

Lemma output_result_existing_destination_witness :
  files sample_world !! str "out.json" = Some (File (str "old")) ∧
  output_result (str "{}") (Some (str "out.json")) false sample_world
  = (sample_world, Raise OSError).
Proof.
  split; [reflexivity|].
  destruct (output_result_existing_destination sample_world (str "out.json")
              (str "old") (str "{}") eq_refl) as (w' & Hout & -> & _).
  exact Hout.
Defined.

Lemma trim_flags_exact_witness :
  dict_get (str "trim_leading_blank_lines") record_trim_flags
  = Some (VBool true) ∧
  dict_get (str "trim_trailing_blank_lines") record_trim_flags
  = Some (VInt 1) ∧
  acquire_body no_files record_trim_flags
  = Ok ([str ""; str ""; str "a"; str ""; str ""], record_trim_flags) ∧
  crop_range [str ""; str ""; str "a"; str ""; str ""] record_trim_flags
  = Ok ([str ""; str ""; str "a"; str ""; str ""], record_trim_flags) ∧
  process_body_data no_files record_trim_flags
  = Ok [(str "body", VList [VStr (str "a"); VStr (str ""); VStr (str "")])].
Proof.
  repeat (split; [reflexivity|]).
  destruct (trim_flags_exact no_files record_trim_flags
              [str ""; str ""; str "a"; str ""; str ""] record_trim_flags
              [str ""; str ""; str "a"; str ""; str ""] record_trim_flags
              eq_refl eq_refl)
    as (lead & trail & Hout & Hlead & _ & _ & Htrail).
  destruct (Hlead eq_refl) as (k & Hk & Hblank & Hhead).
  rewrite Hout, Htrail by discriminate. subst lead.
  destruct k as [|[|[|k]]].
  - destruct Hhead. reflexivity.
  - destruct Hhead. reflexivity.
  - reflexivity.
  - apply Forall_cons in Hblank as [_ Hblank].
    apply Forall_cons in Hblank as [_ Hblank].
    apply Forall_cons in Hblank as [Ha _]. discriminate Ha.
Defined.

Lemma missing_body_fails_witness :
  dict_get (str "source") record_without_body = None ∧
  dict_get (str "body") record_without_body = None ∧
  process_body_data no_files record_without_body = Raise KeyError.
Proof.
  repeat (split; [reflexivity|]).
  exact (missing_body_fails no_files record_without_body eq_refl eq_refl).
Defined.

(** * Further properties of the code *)

(** ** Trimming *)

(** X1. The loop of lines 66-67 removes the whole run of empty lines at the
    front and nothing else: the result is the body without its first [k]
    lines, these [k] lines are all empty, and the result does not start
    with an empty line. *)
Theorem trim_leading_maximal body :
  ∃ k, trim_leading body = drop k body ∧
       Forall (λ line, line = []) (take k body) ∧
       head (trim_leading body) ≠ Some [].
Proof.
  destruct (trim_leading_drop body) as (k & Hk & Hall).
  exists k. split; [done|]. split; [done|]. apply trim_leading_head.
Qed.

(** X2. The loop of lines 69-70 removes the whole run of empty lines at the
    back and nothing else: the result is the first [k] lines of the body,
    the lines after them are all empty, and the result does not end with
    an empty line. *)
Theorem trim_trailing_maximal body :
  ∃ k, trim_trailing body = take k body ∧
       Forall (λ line, line = []) (drop k body) ∧
       last (trim_trailing body) ≠ Some [].
Proof.
  destruct (trim_trailing_take body) as (k & Hk & Hall).
  exists k. split; [done|]. split; [done|]. apply trim_trailing_last.
Qed.

(** X3. Trimming twice is trimming once. *)
Theorem trim_idempotent body :
  trim_leading (trim_leading body) = trim_leading body ∧
  trim_trailing (trim_trailing body) = trim_trailing body.
Proof.
  split.
  - apply trim_leading_fixed, trim_leading_head.
  - apply trim_trailing_fixed, trim_trailing_last.
Qed.

Lemma trim_trailing_cons line rest :
  trim_trailing (line :: rest) =
    match trim_trailing rest with
    | [] => match line with [] => [] | _ => [line] end
    | kept => line :: kept
    end.
Proof.
  induction rest as [|[|c l] rest IH] using rev_ind.
  - destruct line as [|c l]; [reflexivity|].
    apply (trim_trailing_text [] c l).
  - rewrite (trim_trailing_blank rest).
    change (line :: rest ++ [[]]) with ((line :: rest) ++ [[]]).
    by rewrite trim_trailing_blank.
  - rewrite (trim_trailing_text rest).
    change (line :: rest ++ [c :: l]) with ((line :: rest) ++ [c :: l]).
    rewrite trim_trailing_text. by destruct rest.
Qed.

(** X4. The two trimmings do not interfere: trimming the front and then
    the back, as lines 65-70 do, gives the same lines as the other order. *)
Theorem trim_commute body :
  trim_trailing (trim_leading body) = trim_leading (trim_trailing body).
Proof.
  induction body as [|[|c l] rest IH].
  - reflexivity.
  - rewrite trim_leading_blank, IH, (trim_trailing_cons [] rest).
    destruct (trim_trailing rest) as [|kept0 kept]; [reflexivity|].
    by rewrite trim_leading_blank.
  - rewrite trim_leading_text, (trim_trailing_cons (c :: l) rest).
    destruct (trim_trailing rest); by rewrite trim_leading_text.
Qed.

(** X5. A body of empty lines only, and the empty body, trim to no line at
    all, from either end. *)
Theorem trim_all_blank body :
  Forall (λ line, line = []) body →
  trim_leading body = [] ∧ trim_trailing body = [].
Proof.
  intros Hall. split.
  - induction Hall as [|line rest -> _ IH]; [reflexivity|].
    by rewrite trim_leading_blank.
  - induction body as [|line rest IH] using rev_ind; [reflexivity|].
    apply Forall_app in Hall as [Hrest Hline].
    apply Forall_singleton in Hline as ->.
    rewrite trim_trailing_blank. by apply IH.
Qed.

Lemma trim_all_blank_witness :
  Forall (λ line : pystr, line = []) [str ""; str ""] ∧
  trim_leading [str ""; str ""] = [] ∧ trim_trailing [str ""; str ""] = [].
Proof.
  assert (H : Forall (λ line : pystr, line = []) [str ""; str ""])
    by (by repeat constructor).
  split; [exact H|]. exact (trim_all_blank [str ""; str ""] H).
Defined.

(** ** Lines and segments *)

Lemma split_lf_cons s : ∃ line lines, split_lf s = line :: lines.
Proof.
  destruct s as [|c s]; simpl; [eauto|].
  destruct (c =? LF)%N; [eauto|]. destruct (split_lf s); eauto.
Qed.

Lemma join_lf_cons line line' lines :
  join_lf (line :: line' :: lines) = line ++ LF :: join_lf (line' :: lines).
Proof. reflexivity. Qed.

Lemma join_split_lf s : join_lf (split_lf s) = s.
Proof.
  induction s as [|c s IH]; [reflexivity|]. simpl split_lf.
  destruct (split_lf_cons s) as (line & lines & Hs). rewrite Hs in *.
  destruct (N.eqb_spec c LF) as [->|Hne]; cbv iota.
  - rewrite join_lf_cons, IH. reflexivity.
  - destruct lines as [|line' lines].
    + simpl in *. by rewrite IH.
    + rewrite join_lf_cons. rewrite join_lf_cons in IH.
      rewrite <- IH. reflexivity.
Qed.

Lemma split_lf_no_lf s : Forall (λ line, LF ∉ line) (split_lf s).
Proof.
  induction s as [|c s IH]; simpl.
  - repeat constructor. apply not_elem_of_nil.
  - destruct (N.eqb_spec c LF) as [->|Hne]; cbv iota.
    + constructor; [apply not_elem_of_nil|done].
    + destruct (split_lf s) as [|line lines]; simpl.
      * repeat constructor.
        apply not_elem_of_cons. split; [congruence|apply not_elem_of_nil].
      * apply Forall_cons in IH as [Hline Hlines].
        constructor; [|done]. apply not_elem_of_cons. split; [congruence|done].
Qed.

Lemma splitlines_no_break s :
  Forall (λ line, Forall (λ c, is_linebreak c = false) line) (splitlines s).
Proof.
  induction s as [s IH] using (induction_ltof1 _ (@length N)).
  destruct s as [|c s]; [constructor|]. simpl.
  assert (IHs := IH s ltac:(unfold ltof; simpl; lia)).
  destruct (is_linebreak c) eqn:Hc.
  - destruct s as [|d s]; [by repeat constructor|].
    destruct ((c =? 13)%N && (d =? LF)%N).
    + constructor; [constructor|].
      apply IH. unfold ltof. simpl. lia.
    + by constructor.
  - destruct (splitlines s) as [|line lines].
    + by repeat constructor.
    + apply Forall_cons in IHs as [Hline Hlines].
      constructor; [|done]. by constructor.
Qed.

Lemma segment_refl body : segment body body.
Proof. exists [], []. by rewrite app_nil_r. Qed.

Lemma segment_trans a b c : segment a b → segment b c → segment a c.
Proof.
  intros (p1 & q1 & ->) (p2 & q2 & ->).
  exists (p2 ++ p1), (q1 ++ q2). by rewrite <- !app_assoc.
Qed.

Lemma segment_drop k body : segment (drop k body) body.
Proof. exists (take k body), []. by rewrite app_nil_r, take_drop. Qed.

Lemma segment_take k body : segment (take k body) body.
Proof. exists [], (drop k body). simpl. by rewrite take_drop. Qed.

Lemma segment_slice body i j : segment (slice body i j) body.
Proof.
  unfold slice. eapply segment_trans; [apply segment_take|apply segment_drop].
Qed.

Lemma segment_Forall (P : pystr → Prop) lines body :
  segment lines body → Forall P body → Forall P lines.
Proof.
  intros (pre & post & ->) H.
  apply Forall_app in H as [_ H]. by apply Forall_app in H as [H _].
Qed.

Lemma segment_trim_leading body : segment (trim_leading body) body.
Proof.
  destruct (trim_leading_drop body) as (k & -> & _). apply segment_drop.
Qed.

Lemma segment_trim_trailing body : segment (trim_trailing body) body.
Proof.
  destruct (trim_trailing_take body) as (k & -> & _). apply segment_take.
Qed.

Lemma range_slice_Ok body v cropped :
  range_slice body v = Ok cropped → ∃ i j, cropped = slice body i j.
Proof.
  unfold range_slice. intros H. bind_inv H.
  unfold py_slice in H. bind_inv H. injection H as <-. eauto.
Qed.

Lemma crop_range_segment body data cropped d2 :
  crop_range body data = Ok (cropped, d2) → segment cropped body.
Proof.
  destruct (dict_get (str "range") data) as [v|] eqn:Hr.
  - rewrite (crop_range_present _ _ _ Hr). intros H.
    apply bind_Ok in H as (c & Hc & [= <- _]).
    apply range_slice_Ok in Hc as (i & j & ->). apply segment_slice.
  - rewrite (crop_range_absent _ _ Hr). intros [= <- _]. apply segment_refl.
Qed.

Section ResolverShape.
Variable read_text : pyval → result pystr.

(** The body of a resolved record, in terms of the acquired lines. *)
Lemma process_body_data_lines data body d1 out :
  acquire_body read_text data = Ok (body, d1) →
  process_body_data read_text data = Ok out →
  ∃ lines,
    dict_get (str "body") out = Some (VList (VStr <$> lines)) ∧
    segment lines body.
Proof.
  intros Hacq Hout. pose proof Hout as H. unfold process_body_data in H.
  rewrite Hacq in H. cbn [mbind result_bind] in H.
  apply bind_Ok in H as ([cropped d2] & Hcrop & _).
  rewrite (process_body_data_steps _ _ _ _ _ _ Hacq Hcrop) in Hout.
  injection Hout as <-. eexists. split; [apply dict_get_set|].
  apply segment_trans with cropped; [|by eapply crop_range_segment].
  destruct (flag_set (str "trim_leading_blank_lines") data),
           (flag_set (str "trim_trailing_blank_lines") data);
    eauto using segment_trans, segment_trim_leading, segment_trim_trailing,
                segment_refl.
Qed.

Lemma acquire_body_no_lf data body d1 :
  acquire_body read_text data = Ok (body, d1) →
  Forall (λ line, LF ∉ line) body ∧
  (is_Some (dict_get (str "source") data) →
   Forall (λ line, Forall (λ c, is_linebreak c = false) line) body).
Proof.
  unfold acquire_body, dict_pop, dict_getitem.
  destruct (dict_contains (str "source") data) eqn:Hc.
  - apply dict_contains_true in Hc as [path Hget]. rewrite Hget. simpl.
    destruct (read_text path) as [text|]; simpl; [|discriminate].
    intros [= <- _].
    pose proof (splitlines_no_break text) as Hno. split; [|done].
    eapply Forall_impl; [exact Hno|]. intros line Hline Hin.
    by rewrite Forall_forall in Hline; specialize (Hline LF Hin).
  - apply dict_contains_false in Hc. rewrite Hc.
    destruct (dict_get (str "body") data) as [[s| | | | |]|]; simpl;
      try discriminate.
    intros [= <- _]. split; [apply split_lf_no_lf|]. by intros [? ?].
Qed.

(** X6. Resolution never reorders, alters or invents lines: the resolved
    body is a run of consecutive lines of the acquired body; cropping and
    trimming only remove lines at its two ends. *)
Theorem resolved_body_is_segment data body d1 out :
  acquire_body read_text data = Ok (body, d1) →
  process_body_data read_text data = Ok out →
  ∃ pre lines post,
    dict_get (str "body") out = Some (VList (VStr <$> lines)) ∧
    body = pre ++ lines ++ post.
Proof.
  intros Hacq Hout.
  destruct (process_body_data_lines _ _ _ _ Hacq Hout)
    as (lines & Hbody & pre & post & Hseg).
  by exists pre, lines, post.
Qed.

(** X7. Every line of a resolved body is a single line: it contains no
    line feed, and when the body came from a source file it contains no
    line boundary of [splitlines] at all. *)
Theorem resolved_lines_are_single_lines data out :
  process_body_data read_text data = Ok out →
  ∃ lines,
    dict_get (str "body") out = Some (VList (VStr <$> lines)) ∧
    Forall (λ line, LF ∉ line) lines ∧
    (is_Some (dict_get (str "source") data) →
     Forall (λ line, Forall (λ c, is_linebreak c = false) line) lines).
Proof.
  intros Hout.
  destruct (process_body_data_Ok _ _ _ Hout) as (body & _ & Hacq & _).
  destruct (process_body_data_lines _ _ _ _ Hacq Hout) as (lines & Hbody & Hseg).
  destruct (acquire_body_no_lf _ _ _ Hacq) as [Hlf Hbrk].
  exists lines. split; [done|]. split.
  - by apply (segment_Forall _ _ _ Hseg).
  - intros Hsrc. by apply (segment_Forall _ _ _ Hseg), Hbrk.
Qed.

(** X8. A record with an inline body, no [range] and no trim flag set to
    [true] loses nothing: its resolved lines are the pieces of the text
    between line feeds, and joining them with line feeds gives the text
    back. *)
Theorem plain_record_round_trip data text :
  dict_get (str "source") data = None →
  dict_get (str "range") data = None →
  dict_get (str "body") data = Some (VStr text) →
  dict_get (str "trim_leading_blank_lines") data ≠ Some (VBool true) →
  dict_get (str "trim_trailing_blank_lines") data ≠ Some (VBool true) →
  ∃ out lines,
    process_body_data read_text data = Ok out ∧
    dict_get (str "body") out = Some (VList (VStr <$> lines)) ∧
    lines = split_lf text ∧
    join_lf lines = text.
Proof.
  intros Hsrc Hrange Hbody Hlead Htrail.
  pose proof (acquire_body_inline read_text _ _ Hsrc Hbody) as Hacq.
  pose proof (crop_range_absent (split_lf text) _ Hrange) as Hcrop.
  pose proof (process_body_data_steps _ _ _ _ _ _ Hacq Hcrop) as Hsteps.
  cbv zeta in Hsteps.
  rewrite (proj2 (flag_set_false _ _) Hlead) in Hsteps.
  rewrite (proj2 (flag_set_false _ _) Htrail) in Hsteps.
  eexists _, (split_lf text). split; [exact Hsteps|].
  split; [apply dict_get_set|]. split; [done|apply join_split_lf].
Qed.
End ResolverShape.

(** ** Keys of a resolved record *)

Lemma dict_keys_delete {V : Type} k (d : list (pystr * V)) :
  dict_keys (dict_delete k d) = filter (λ k', k ≠ k') (dict_keys d).
Proof.
  unfold dict_keys. induction d as [|[k' v'] d IH]; [done|]. simpl.
  destruct (decide (k = k')) as [<-|Hne].
  - by rewrite filter_cons_False by (by intros H).
  - rewrite filter_cons_True by done. simpl. by rewrite IH.
Qed.

Lemma dict_keys_set {V : Type} k (v : V) (d : list (pystr * V)) :
  dict_keys (dict_set k v d)
  = dict_keys d ++ (if dict_contains k d then [] else [k]).
Proof.
  unfold dict_keys. induction d as [|[k' v'] d IH]; [done|]. simpl.
  destruct (decide (k = k')) as [<-|Hne]; simpl.
  - by rewrite app_nil_r.
  - by rewrite IH.
Qed.

Lemma dict_contains_delete_ne {V : Type} k k' (d : list (pystr * V)) :
  k ≠ k' → dict_contains k (dict_delete k' d) = dict_contains k d.
Proof.
  intros Hne. by rewrite !dict_contains_get, dict_get_delete_ne.
Qed.

Lemma extension_keys_filter (keys : list pystr) :
  filter (λ k, str "trim_trailing_blank_lines" ≠ k)
    (filter (λ k, str "trim_leading_blank_lines" ≠ k)
       (filter (λ k, str "range" ≠ k)
          (filter (λ k, str "source" ≠ k) keys)))
  = filter (λ k, k ∉ extension_keys) keys.
Proof.
  rewrite !list_filter_filter. apply list_filter_iff. intros k.
  unfold extension_keys. rewrite !not_elem_of_cons. split.
  - intros [[[H1 H2] H3] H4]. repeat split; try congruence.
    apply not_elem_of_nil.
  - intros (H1 & H2 & H3 & H4 & _). repeat split; congruence.
Qed.

Section ResolverEdges.
Variable read_text : pyval → result pystr.

(** X9. The attribute order of a resolved record is the order of the input
    record without the four extension attributes; [body] keeps its place
    when the record had one, and is added at the end when the body came
    from a source file alone. *)
Theorem resolved_key_order data out :
  process_body_data read_text data = Ok out →
  dict_keys out
  = filter (λ k, k ∉ extension_keys) (dict_keys data)
    ++ (if dict_contains (str "body") data then [] else [str "body"]).
Proof.
  intros Hout.
  apply process_body_data_Ok in Hout as (_ & _ & _ & _ & lines & ->).
  rewrite dict_keys_set, !dict_keys_delete, extension_keys_filter.
  by rewrite !dict_contains_delete_ne by key_neq.
Qed.

(** X10. A range [[1, e]] that reaches the last line, or goes beyond it,
    keeps the whole body. *)
Theorem crop_whole_body body data e :
  dict_get (str "range") data = Some (VList [VInt 1; VInt e]) →
  1 ≤ e →
  Z.of_nat (length body) ≤ e →
  crop_range body data = Ok (body, dict_delete (str "range") data).
Proof.
  intros Hget He Hlen.
  rewrite (crop_range_bounds body data _ 1 e Hget eq_refl) by lia.
  rewrite slice_crop by lia.
  change (Z.to_nat (1 - 1)) with 0%nat. rewrite drop_0.
  by rewrite take_ge by lia.
Qed.

(** X11. A resolved record cannot be resolved again: it has no [source],
    and its [body] is a list, which has no [split]; the second resolution
    raises [AttributeError], whatever the files are. *)
Theorem resolved_record_not_resolvable read_text' data out :
  process_body_data read_text data = Ok out →
  process_body_data read_text' out = Raise AttributeError.
Proof.
  intros Hout.
  apply process_body_data_Ok in Hout as (_ & _ & _ & _ & lines & ->).
  apply process_body_data_acquire_fails.
  unfold acquire_body, dict_getitem.
  rewrite (proj2 (dict_contains_false _ _)).
  - by rewrite dict_get_set.
  - rewrite dict_get_set_ne by key_neq.
    rewrite !dict_get_delete_ne by key_neq. apply dict_get_delete.
Qed.

(** X12. Without a [source], a [body] that is not a string, for instance
    an array of lines as the JSON format has it, is rejected with
    [AttributeError]. *)
Theorem non_string_body_rejected data v :
  dict_get (str "source") data = None →
  dict_get (str "body") data = Some v →
  (∀ text, v ≠ VStr text) →
  process_body_data read_text data = Raise AttributeError.
Proof.
  intros Hsrc Hbody Hv. apply process_body_data_acquire_fails.
  unfold acquire_body, dict_getitem.
  rewrite (proj2 (dict_contains_false _ _) Hsrc), Hbody.
  destruct v; try reflexivity. by destruct (Hv s).
Qed.

(** X13. There is no fallback from [source] to [body]: when the source
    file cannot be read, the record fails with the error of the read, even
    if it also has an inline body. *)
Theorem unreadable_source_no_fallback data path e :
  dict_get (str "source") data = Some path →
  read_text path = Raise e →
  process_body_data read_text data = Raise e.
Proof.
  intros Hsrc Hread. apply process_body_data_acquire_fails.
  by apply acquire_body_source_fails with (path := path).
Qed.

(** X14. A record without [source] is resolved without reading any file:
    the outcome is the same whatever the files hold. *)
Theorem no_source_no_file_access read_text' data :
  dict_get (str "source") data = None →
  process_body_data read_text data = process_body_data read_text' data.
Proof.
  intros Hsrc. unfold process_body_data, acquire_body.
  by rewrite (proj2 (dict_contains_false _ _) Hsrc).
Qed.
End ResolverEdges.

(** ** Failing sections *)

Section ConversionErrors.
Variable read_text : pyval → result pystr.
Variable toml_loads : pystr → result pydict.
Variable json_dumps : pydict → result pystr.

Lemma dict_comprehension_app pre : ∀ rest acc,
  Forall (λ kv, ∃ v', process_value read_text kv.2 = Ok v') pre →
  ∃ acc', dict_comprehension read_text (pre ++ rest) acc
          = dict_comprehension read_text rest acc'.
Proof.
  induction pre as [|[k v] pre IH]; intros rest acc Hall; [by eexists|].
  apply Forall_cons in Hall as [[v' Hv] Hall]. simpl in Hv.
  simpl. rewrite Hv. cbn [mbind result_bind]. by apply IH.
Qed.

Lemma process_value_non_table v :
  (∀ d, v ≠ VDict d) → ∃ e, process_value read_text v = Raise e.
Proof.
  intros Hv. destruct v as [s| | | | |d]; simpl; eauto.
  - destruct (str_contains (str "source") s); eauto.
  - by destruct (Hv d).
Qed.

Lemma dict_comprehension_non_table items : ∀ acc k v,
  (k, v) ∈ items → (∀ d, v ≠ VDict d) →
  ∃ e, dict_comprehension read_text items acc = Raise e.
Proof.
  induction items as [|[k' v'] items IH]; intros acc k v Hin Hv.
  - by apply elem_of_nil in Hin.
  - simpl. destruct (process_value read_text v') as [w|e] eqn:Hw;
      cbn [mbind result_bind]; [|eauto].
    apply elem_of_cons in Hin as [[= <- <-]|Hin].
    + destruct (process_value_non_table v Hv) as [e He]. congruence.
    + by apply IH with (k := k) (v := v).
Qed.

(** X15. The sections are resolved in document order and the first one
    that fails decides the outcome: its error is the error of the whole
    conversion, whatever follows it, and nothing is serialized. *)
Theorem first_failure_wins toml_str pre k v post e :
  toml_loads toml_str = Ok (pre ++ (k, v) :: post) →
  Forall (λ kv, ∃ v', process_value read_text kv.2 = Ok v') pre →
  process_value read_text v = Raise e →
  convert_toml_string read_text toml_loads json_dumps toml_str = Raise e.
Proof.
  intros Hload Hpre Hv. unfold convert_toml_string.
  rewrite Hload. cbn [mbind result_bind].
  destruct (dict_comprehension_app pre ((k, v) :: post) [] Hpre) as [acc' ->].
  simpl. by rewrite Hv.
Qed.

(** X16. Every top-level value must be a table: a document with a
    top-level key whose value is a string, a number, a boolean or an array
    is not converted. *)
Theorem non_table_section_fails toml_str data k v :
  toml_loads toml_str = Ok data →
  (k, v) ∈ data →
  (∀ d, v ≠ VDict d) →
  ∃ e, convert_toml_string read_text toml_loads json_dumps toml_str = Raise e.
Proof.
  intros Hload Hin Hv. unfold convert_toml_string.
  rewrite Hload. cbn [mbind result_bind].
  destruct (dict_comprehension_non_table data [] k v Hin Hv) as [e ->].
  by exists e.
Qed.
End ConversionErrors.

(** ** Delivering the output *)

Lemma write_file_Ok p text w w' u :
  write_file p text w = (w', Ok u) →
  w' = set_files (<[p := File text]> (files w)) w.
Proof.
  unfold write_file.
  destruct (files w !! p) as [[content|]|]; try discriminate;
    (destruct (bool_decide (0%N ∈ p)); [discriminate|]);
    (destruct (open_error w p); [discriminate|]);
    (destruct (write_error w p text) as [[e partial]|]; [discriminate|]);
    by intros [= <-].
Qed.

(** Whether it succeeds or fails, and wherever it fails, writing to [p]
    leaves the other files and standard output alone. *)
Lemma write_file_frame p text w q :
  p ≠ q → files (write_file p text w).1 !! q = files w !! q.
Proof.
  intros Hne. unfold write_file.
  destruct (files w !! p) as [[content|]|]; try done;
    (destruct (bool_decide (0%N ∈ p)); [done|]);
    (destruct (open_error w p); [done|]);
    (destruct (write_error w p text) as [[e partial]|]); simpl;
    by apply lookup_insert_ne.
Qed.

Lemma write_file_stdout p text w : stdout (write_file p text w).1 = stdout w.
Proof.
  unfold write_file.
  destruct (files w !! p) as [[content|]|]; try done;
    (destruct (bool_decide (0%N ∈ p)); [done|]);
    (destruct (open_error w p); [done|]);
    by destruct (write_error w p text) as [[e partial]|].
Qed.

Lemma print_files text w : files (print text w).1 = files w.
Proof. unfold print. by destruct (print_error w text) as [[e partial]|]. Qed.

Lemma output_result_Ok result_json p overwrite w w' u :
  output_result result_json (Some p) overwrite w = (w', Ok u) →
  w' = set_files (<[p := File result_json]> (files w)) w.
Proof.
  unfold output_result.
  destruct (path_exists w p && negb overwrite); [discriminate|].
  apply write_file_Ok.
Qed.

Example write_that_fails_truncates :
  output_result [233%N] (Some (str "out.json")) true sample_ascii_world
  = (ascii_world {[ str "out.json" := File [] ]}, Raise ValueError).
Proof. reflexivity. Qed.

Example print_that_fails :
  output_result (str "{}") None false
    (World ∅ (str ">") (λ _, None) (λ _ _, None) (λ _, Some (OSError, [])))
  = (World ∅ (str ">") (λ _, None) (λ _ _, None) (λ _, Some (OSError, [])),
     Raise OSError).
Proof. reflexivity. Qed.

(** X17. Without [overwrite], a delivery changes no file that existed
    before it, whether it succeeds or fails and wherever it fails: an
    existing destination stops it at line 109, and a new destination is
    the only file it opens. *)
Theorem no_overwrite_keeps_existing_files result_json dest w q content :
  files w !! q = Some content →
  files (output_result result_json dest false w).1 !! q = Some content.
Proof.
  intros Hq. destruct dest as [p|]; simpl.
  - unfold path_exists.
    destruct (bool_decide (is_Some (files w !! p))) eqn:Hp; simpl; [done|].
    apply bool_decide_eq_false in Hp.
    rewrite write_file_frame; [done|].
    intros ->. apply Hp. eauto.
  - by rewrite print_files.
Qed.

(** X18. A delivery to a destination that succeeds leaves exactly the
    serialized text in the destination file, and standard output as it
    was. *)
Theorem output_result_writes_text result_json p overwrite w w' u :
  output_result result_json (Some p) overwrite w = (w', Ok u) →
  files w' !! p = Some (File result_json) ∧ stdout w' = stdout w.
Proof.
  intros H. apply output_result_Ok in H as ->. simpl.
  split; [apply lookup_insert_eq|done].
Qed.

(** X19. [output_result] never touches a file other than its destination,
    whether it succeeds or fails. With a destination it leaves standard
    output alone; without one it touches no file at all, and when it
    succeeds standard output has gained the text and a line feed. *)
Theorem output_result_frame result_json dest overwrite w :
  (∀ q, dest ≠ Some q →
        files (output_result result_json dest overwrite w).1 !! q
        = files w !! q) ∧
  (∀ p, dest = Some p →
        stdout (output_result result_json dest overwrite w).1 = stdout w) ∧
  (dest = None →
   files (output_result result_json dest overwrite w).1 = files w ∧
   ∀ w' u,
     output_result result_json dest overwrite w = (w', Ok u) →
     stdout w' = stdout w ++ result_json ++ [LF]).
Proof.
  split; [|split].
  - intros q Hq. destruct dest as [p|]; simpl.
    + destruct (path_exists w p && negb overwrite); [done|].
      apply write_file_frame. congruence.
    + by rewrite print_files.
  - intros p ->. simpl.
    destruct (path_exists w p && negb overwrite); [done|].
    apply write_file_stdout.
  - intros ->. simpl. split; [apply print_files|].
    intros w' u. unfold print.
    destruct (print_error w result_json) as [[e partial]|]; [discriminate|].
    by intros [= <-].
Qed.

(** X20. After a successful delivery, a second delivery to the same
    destination without [overwrite] fails and the destination still holds
    the first text. *)
Theorem second_delivery_keeps_first text1 text2 p overwrite w w1 u :
  output_result text1 (Some p) overwrite w = (w1, Ok u) →
  output_result text2 (Some p) false w1 = (w1, Raise OSError) ∧
  files w1 !! p = Some (File text1).
Proof.
  intros H. apply output_result_Ok in H as ->.
  unfold output_result, path_exists. simpl.
  rewrite bool_decide_eq_true_2 by (rewrite lookup_insert_eq; eauto).
  split; [done|apply lookup_insert_eq].
Qed.

(** X21. When a delivery has succeeded and a second delivery to the same
    destination with [overwrite] succeeds too, the destination holds the
    second text and every other file is as it was before the first. *)
Theorem second_delivery_overwrites text1 text2 p overwrite w w1 u w2 u2 :
  output_result text1 (Some p) overwrite w = (w1, Ok u) →
  output_result text2 (Some p) true w1 = (w2, Ok u2) →
  files w2 !! p = Some (File text2) ∧
  ∀ q, q ≠ p → files w2 !! q = files w !! q.
Proof.
  intros H1 H2.
  apply output_result_Ok in H1 as ->. apply output_result_Ok in H2 as ->.
  simpl. split; [apply lookup_insert_eq|].
  intros q Hq. by rewrite !lookup_insert_ne by done.
Qed.

(** X22. A destination that is a directory is never written: the delivery
    raises [OSError] with and without [overwrite], and nothing changes. *)
Theorem directory_destination_fails result_json p overwrite w :
  files w !! p = Some Directory →
  output_result result_json (Some p) overwrite w = (w, Raise OSError).
Proof.
  intros Hdir. unfold output_result, write_file. rewrite Hdir.
  by destruct (path_exists w p && negb overwrite).
Qed.

(** * The further properties at sample inputs *)

Lemma resolved_body_is_segment_witness :
  acquire_body no_files record_range_2_4
  = Ok (split_lf five_lines, record_range_2_4) ∧
  process_body_data no_files record_range_2_4 = Ok resolved_range_2_4 ∧
  ∃ pre lines post,
    dict_get (str "body") resolved_range_2_4 = Some (VList (VStr <$> lines)) ∧
    split_lf five_lines = pre ++ lines ++ post.
Proof.
  split; [reflexivity|]. split; [reflexivity|].
  exact (resolved_body_is_segment no_files record_range_2_4
           (split_lf five_lines) record_range_2_4 resolved_range_2_4
           eq_refl eq_refl).
Defined.

Lemma resolved_lines_are_single_lines_witness :
  process_body_data no_files record_range_2_4 = Ok resolved_range_2_4 ∧
  ∃ lines,
    dict_get (str "body") resolved_range_2_4 = Some (VList (VStr <$> lines)) ∧
    Forall (λ line, LF ∉ line) lines ∧
    (is_Some (dict_get (str "source") record_range_2_4) →
     Forall (λ line, Forall (λ c, is_linebreak c = false) line) lines).
Proof.
  split; [reflexivity|].
  exact (resolved_lines_are_single_lines no_files record_range_2_4
           resolved_range_2_4 eq_refl).
Defined.

Lemma plain_record_round_trip_witness :
  dict_get (str "source") record_body_only = None ∧
  dict_get (str "range") record_body_only = None ∧
  dict_get (str "body") record_body_only = Some (VStr (str "a" ++ [LF])) ∧
  ∃ out lines,
    process_body_data no_files record_body_only = Ok out ∧
    dict_get (str "body") out = Some (VList (VStr <$> lines)) ∧
    lines = split_lf (str "a" ++ [LF]) ∧
    join_lf lines = str "a" ++ [LF].
Proof.
  repeat (split; [reflexivity|]).
  apply (plain_record_round_trip no_files record_body_only (str "a" ++ [LF]));
    [reflexivity | reflexivity | reflexivity | discriminate | discriminate].
Defined.

Lemma resolved_key_order_witness :
  process_body_data one_line_files record_source_and_body
  = Ok resolved_source_and_body ∧
  dict_keys resolved_source_and_body = [str "prefix"; str "body"].
Proof.
  split; [reflexivity|].
  rewrite (resolved_key_order one_line_files record_source_and_body
             resolved_source_and_body eq_refl).
  reflexivity.
Defined.

Lemma crop_whole_body_witness :
  dict_get (str "range") record_range_1_10 = Some (VList [VInt 1; VInt 10]) ∧
  1 ≤ 10 ∧
  Z.of_nat (length (split_lf five_lines)) ≤ 10 ∧
  crop_range (split_lf five_lines) record_range_1_10
  = Ok (split_lf five_lines, []).
Proof.
  assert (H1 : 1 ≤ 10) by lia.
  assert (H2 : Z.of_nat (length (split_lf five_lines)) ≤ 10) by (simpl; lia).
  split; [reflexivity|]. split; [exact H1|]. split; [exact H2|].
  exact (crop_whole_body (split_lf five_lines) record_range_1_10 10
           eq_refl H1 H2).
Defined.

Lemma resolved_record_not_resolvable_witness :
  process_body_data no_files record_range_2_4 = Ok resolved_range_2_4 ∧
  process_body_data one_line_files resolved_range_2_4 = Raise AttributeError.
Proof.
  split; [reflexivity|].
  exact (resolved_record_not_resolvable no_files one_line_files
           record_range_2_4 resolved_range_2_4 eq_refl).
Defined.

Lemma non_string_body_rejected_witness :
  dict_get (str "source") record_body_array = None ∧
  dict_get (str "body") record_body_array
  = Some (VList [VStr (str "a"); VStr (str "b")]) ∧
  process_body_data no_files record_body_array = Raise AttributeError.
Proof.
  split; [reflexivity|]. split; [reflexivity|].
  apply (non_string_body_rejected no_files record_body_array
           (VList [VStr (str "a"); VStr (str "b")]));
    [reflexivity | reflexivity | discriminate].
Defined.

Lemma unreadable_source_no_fallback_witness :
  dict_get (str "source") record_source_and_body
  = Some (VStr (str "file.txt")) ∧
  no_files (VStr (str "file.txt")) = Raise OSError ∧
  process_body_data no_files record_source_and_body = Raise OSError.
Proof.
  split; [reflexivity|]. split; [reflexivity|].
  exact (unreadable_source_no_fallback no_files record_source_and_body
           (VStr (str "file.txt")) OSError eq_refl eq_refl).
Defined.

Lemma no_source_no_file_access_witness :
  dict_get (str "source") record_scenario_A = None ∧
  process_body_data no_files record_scenario_A
  = process_body_data one_line_files record_scenario_A.
Proof.
  split; [reflexivity|].
  exact (no_source_no_file_access no_files one_line_files record_scenario_A
           eq_refl).
Defined.

Lemma first_failure_wins_witness :
  process_value no_files (VDict record_without_body) = Raise KeyError ∧
  convert_toml_string no_files (λ _, Ok failing_document) (λ _, Ok [])
    (str "[for]")
  = Raise KeyError.
Proof.
  split; [reflexivity|].
  apply (first_failure_wins no_files (λ _, Ok failing_document) (λ _, Ok [])
           (str "[for]") [(str "for", VDict record_scenario_A)]
           (str "broken") (VDict record_without_body)
           [(str "title", VInt 1)] KeyError).
  - reflexivity.
  - constructor; [|constructor]. eexists. reflexivity.
  - reflexivity.
Defined.

Lemma non_table_section_fails_witness :
  (str "title", VStr (str "my snippets")) ∈ document_with_title ∧
  ∃ e, convert_toml_string no_files (λ _, Ok document_with_title) (λ _, Ok [])
         (str "title") = Raise e.
Proof.
  assert (Hin : (str "title", VStr (str "my snippets")) ∈ document_with_title)
    by left.
  split; [exact Hin|].
  apply (non_table_section_fails no_files (λ _, Ok document_with_title)
           (λ _, Ok []) (str "title") document_with_title
           (str "title") (VStr (str "my snippets")));
    [reflexivity | exact Hin | discriminate].
Defined.

Lemma no_overwrite_keeps_existing_files_witness :
  files sample_ascii_world !! str "out.json" = Some (File (str "old")) ∧
  output_result [233%N] (Some (str "new.json")) false sample_ascii_world
  = (ascii_world (<[ str "new.json" := File [] ]> (files sample_ascii_world)),
     Raise ValueError) ∧
  files (output_result [233%N] (Some (str "new.json")) false
           sample_ascii_world).1 !! str "out.json"
  = Some (File (str "old")).
Proof.
  split; [reflexivity|]. split; [reflexivity|].
  exact (no_overwrite_keeps_existing_files [233%N] (Some (str "new.json"))
           sample_ascii_world (str "out.json") (File (str "old")) eq_refl).
Defined.

Lemma output_result_writes_text_witness :
  output_result (str "{}") (Some (str "new.json")) false sample_world
  = (sample_world_written, Ok tt) ∧
  files sample_world_written !! str "new.json" = Some (File (str "{}")) ∧
  stdout sample_world_written = stdout sample_world.
Proof.
  split; [reflexivity|].
  exact (output_result_writes_text (str "{}") (str "new.json") false
           sample_world sample_world_written tt eq_refl).
Defined.

Lemma output_result_frame_witness :
  Some (str "new.json") ≠ Some (str "out.json") ∧
  files (output_result (str "{}") (Some (str "new.json")) true sample_world).1
    !! str "out.json"
  = files sample_world !! str "out.json".
Proof.
  assert (Hne : Some (str "new.json") ≠ Some (str "out.json"))
    by discriminate.
  split; [exact Hne|].
  exact (proj1 (output_result_frame (str "{}") (Some (str "new.json")) true
                  sample_world) (str "out.json") Hne).
Defined.

Lemma second_delivery_keeps_first_witness :
  output_result (str "{}") (Some (str "new.json")) false sample_world
  = (sample_world_written, Ok tt) ∧
  output_result (str "[]") (Some (str "new.json")) false sample_world_written
  = (sample_world_written, Raise OSError) ∧
  files sample_world_written !! str "new.json" = Some (File (str "{}")).
Proof.
  split; [reflexivity|].
  exact (second_delivery_keeps_first (str "{}") (str "[]") (str "new.json")
           false sample_world sample_world_written tt eq_refl).
Defined.

Lemma second_delivery_overwrites_witness :
  output_result (str "{}") (Some (str "new.json")) false sample_world
  = (sample_world_written, Ok tt) ∧
  output_result (str "[]") (Some (str "new.json")) true sample_world_written
  = (quiet_world (<[ str "new.json" := File (str "[]") ]>
                    (files sample_world_written)), Ok tt) ∧
  files (quiet_world (<[ str "new.json" := File (str "[]") ]>
                        (files sample_world_written))) !! str "new.json"
  = Some (File (str "[]")) ∧
  ∀ q, q ≠ str "new.json" →
       files (quiet_world (<[ str "new.json" := File (str "[]") ]>
                             (files sample_world_written))) !! q
       = files sample_world !! q.
Proof.
  split; [reflexivity|]. split; [reflexivity|].
  exact (second_delivery_overwrites (str "{}") (str "[]") (str "new.json")
           false sample_world sample_world_written tt _ tt eq_refl eq_refl).
Defined.

Lemma directory_destination_fails_witness :
  files world_with_directory !! str "out" = Some Directory ∧
  output_result (str "{}") (Some (str "out")) true world_with_directory
  = (world_with_directory, Raise OSError).
Proof.
  split; [reflexivity|].
  exact (directory_destination_fails (str "{}") (str "out") true
           world_with_directory eq_refl).
Defined.
